(** * A shallow embedding of the mapio_display e-paper driver and its tasks

    The development follows three source files of the repository:
    - [epd/epd.py]: the [EPD] class, the SPI/GPIO protocol driver of the
      122x250 e-paper panel;
    - [leds/leds.py]: the [LED] class (sysfs LED control);
    - [app/app.py]: the [MAPIO_CTRL] object and the three tasks
      [refresh_screen_task], [refresh_leds_task] and [_gpio_chip_handler].

    Python statements are run in a small state-and-exception monad [M]:
    the process state [St] (object attributes, GPIO levels, the clock and
    the log of every byte and line change sent to the hardware) is threaded
    through the code, and an exception keeps the state reached when it was
    raised, as in Python.  The hardware and the external collaborators
    (the BUSY pin, SPI failures, the view generators, hashlib, systemctl,
    the PMIC queries) are read from an environment [Env].  The only
    unbounded loop of the driver, the busy-wait, runs on a fuel budget of
    polls: a run that exhausts it ends in [Waiting], which means the Python
    code is still polling. *)

From Stdlib Require Import ZArith List String Ascii Bool Lia.
Import ListNotations.
Open Scope Z_scope.
Open Scope list_scope.

(** ** Values, events and the environment *)

(** The Python exceptions the modelled code can raise. *)
Inductive Exc : Type :=
| OSError         (* spidev / gpiod I/O failure *)
| IndexError      (* list index out of range *)
| TypeError       (* wrong call arity, hashlib on a non-buffer *)
| AttributeError  (* reading an attribute never assigned *)
| NameError       (* local variable referenced before assignment *)
| ValueError.     (* [int(.., 16)] of a command output that does not parse *)

(** Result of running a statement: a value, an exception, or a busy-wait
    still polling when the budget of polls ran out. *)
Inductive Out (A : Type) : Type :=
| Ok (a : A)
| Raise (e : Exc)
| Waiting.
Arguments Ok {A} a.
Arguments Raise {A} e.
Arguments Waiting {A}.

(** What the process does to the outside world, newest first in [trace]. *)
Inductive Ev : Type :=
| Xfer (dc : Z) (byte : Z)              (* [spi.writebytes([byte])], DC line at [dc] *)
| Rst (level : Z)                       (* [reset_gpio.set_value(level)] *)
| Release                               (* [line.release()] *)
| Sysfs (path : string) (value : string) (* a write to a sysfs LED file *)
| Shell (cmd : string).                 (* [os.system(cmd)], or [subprocess.call] of
                                           an argument list joined by spaces *)

(** A PIL image of mode "1": its size and its pixels ([true] = 255, white). *)
Record Image : Type := {
  im_width : Z;
  im_height : Z;
  im_pixel : Z -> Z -> bool
}.

(** [BatteryState] of app.py. *)
Inductive BatteryState : Type := powered | on_battery | critical.

(** The hardware and the collaborators the code queries. *)
Record Env : Type := {
  busy_level : Z -> Z;              (* level of BUSY_PIN at time t (ms) *)
  spi_ok : nat -> bool;             (* does the n-th SPI transfer succeed *)
  render : string -> Image;         (* the [_generate_*_view] generators *)
  sha256_hex : list Z -> string;    (* [hashlib.sha256(..).hexdigest()] *)
  docker_active : Z -> bool;        (* [systemctl is-active docker] at time t *)
  battery_state : Z -> nat -> option BatteryState;
    (* the [k]-th [get_battery_state()] call of an LED-task iteration at
       time t; [None]: a PMIC register output did not parse *)
  led_timer_active : string -> bool; (* "[timer]" in the LED's trigger file *)
  webserver_active : Z -> bool;  (* [systemctl is-active --quiet mapio-webserver-back] is 0 *)
  ping_ok : Z -> bool;           (* [_send_ping_command()] at time t *)
  ap_active : Z -> bool;         (* [systemctl is-active wpa_supplicant-ap] is 0 *)
  ap_password : Z -> string      (* the 8 random lowercase letters drawn at time t *)
}.

(** The process state: the attributes of [mapio_ctrl] and [mapio_ctrl.epd]
    the claims are about, the DC line level, the clock and the I/O log. *)
Record St : Type := {
  clock : Z;                 (* [time.time()] in milliseconds *)
  dc_level : Z;              (* level last set on DC_PIN *)
  nxfer : nat;               (* SPI transfers done so far *)
  trace : list Ev;           (* everything sent out, newest first *)
  need_refresh : bool;       (* [mapio_ctrl.need_refresh] *)
  current_view : string;     (* [mapio_ctrl.current_view] *)
  views_pool : list string;  (* [mapio_ctrl.views_pool], a deque *)
  mid_press : bool;          (* [mapio_ctrl.mid_press] *)
  is_busy : option bool      (* [mapio_ctrl.epd.is_busy]; [None]: never assigned *)
}.

Definition set_clock (t : Z) (s : St) : St :=
  {| clock := t; dc_level := dc_level s; nxfer := nxfer s; trace := trace s;
     need_refresh := need_refresh s; current_view := current_view s;
     views_pool := views_pool s; mid_press := mid_press s; is_busy := is_busy s |}.
Definition set_dc_level (v : Z) (s : St) : St :=
  {| clock := clock s; dc_level := v; nxfer := nxfer s; trace := trace s;
     need_refresh := need_refresh s; current_view := current_view s;
     views_pool := views_pool s; mid_press := mid_press s; is_busy := is_busy s |}.
Definition log_ev (x : Ev) (s : St) : St :=
  {| clock := clock s; dc_level := dc_level s; nxfer := nxfer s; trace := x :: trace s;
     need_refresh := need_refresh s; current_view := current_view s;
     views_pool := views_pool s; mid_press := mid_press s; is_busy := is_busy s |}.
Definition log_xfer (v : Z) (s : St) : St :=
  {| clock := clock s; dc_level := dc_level s; nxfer := S (nxfer s);
     trace := Xfer (dc_level s) v :: trace s;
     need_refresh := need_refresh s; current_view := current_view s;
     views_pool := views_pool s; mid_press := mid_press s; is_busy := is_busy s |}.
Definition set_need_refresh_st (b : bool) (s : St) : St :=
  {| clock := clock s; dc_level := dc_level s; nxfer := nxfer s; trace := trace s;
     need_refresh := b; current_view := current_view s;
     views_pool := views_pool s; mid_press := mid_press s; is_busy := is_busy s |}.
Definition set_current_view_st (v : string) (s : St) : St :=
  {| clock := clock s; dc_level := dc_level s; nxfer := nxfer s; trace := trace s;
     need_refresh := need_refresh s; current_view := v;
     views_pool := views_pool s; mid_press := mid_press s; is_busy := is_busy s |}.
Definition set_views_pool_st (p : list string) (s : St) : St :=
  {| clock := clock s; dc_level := dc_level s; nxfer := nxfer s; trace := trace s;
     need_refresh := need_refresh s; current_view := current_view s;
     views_pool := p; mid_press := mid_press s; is_busy := is_busy s |}.
Definition set_mid_press_st (b : bool) (s : St) : St :=
  {| clock := clock s; dc_level := dc_level s; nxfer := nxfer s; trace := trace s;
     need_refresh := need_refresh s; current_view := current_view s;
     views_pool := views_pool s; mid_press := b; is_busy := is_busy s |}.
Definition set_is_busy_st (b : option bool) (s : St) : St :=
  {| clock := clock s; dc_level := dc_level s; nxfer := nxfer s; trace := trace s;
     need_refresh := need_refresh s; current_view := current_view s;
     views_pool := views_pool s; mid_press := mid_press s; is_busy := b |}.

(** ** The monad *)

(** A statement reads the poll budget and the environment and threads the
    process state. *)
Definition M (A : Type) : Type := nat -> Env -> St -> St * Out A.

Definition ret {A} (a : A) : M A := fun _ _ s => (s, Ok a).

Definition bind {A B} (m : M A) (k : A -> M B) : M B :=
  fun f e s =>
    match m f e s with
    | (s', Ok a) => k a f e s'
    | (s', Raise x) => (s', Raise x)
    | (s', Waiting) => (s', Waiting)
    end.

Notation "x <- m ;; k" := (bind m (fun x => k))
  (at level 61, m at next level, right associativity).
Notation "m ;; k" := (bind m (fun _ => k))
  (at level 61, right associativity).

Definition raise {A} (x : Exc) : M A := fun _ _ s => (s, Raise x).
Definition modify (g : St -> St) : M unit := fun _ _ s => (g s, Ok tt).
Definition gets {A} (g : St -> A) : M A := fun _ _ s => (s, Ok (g s)).
Definition asks {A} (g : Env -> A) : M A := fun _ e s => (s, Ok (g e)).

(** [time.time()] *)
Definition time_now : M Z := gets clock.

(** [time.sleep] / [epd_delay_ms]: the clock advances by [d] ms. *)
Definition sleep_ms (d : Z) : M unit := modify (fun s => set_clock (clock s + d) s).

(** [for x in xs: body(x)] *)
Fixpoint for_each {A} (xs : list A) (body : A -> M unit) : M unit :=
  match xs with
  | [] => ret tt
  | x :: xs' => body x ;; for_each xs' body
  end.

(** [range(lo, hi)] *)
Definition range (lo hi : Z) : list Z :=
  map (fun k => lo + Z.of_nat k) (seq 0 (Z.to_nat (hi - lo))).

(** [xs[i]] on a Python list: [IndexError] out of range. *)
Definition py_index (xs : list Z) (i : Z) : M Z :=
  if i <? 0 then raise IndexError
  else match nth_error xs (Z.to_nat i) with
       | Some v => ret v
       | None => raise IndexError
       end.
(** [EPD.lut_partial_update]: the partial-refresh waveform table (159 bytes). *)
Definition lut_partial_update : list Z :=
  [ 0x0; 0x40; 0x0; 0x0; 0x0; 0x0; 0x0; 0x0; 0x0; 0x0; 0x0; 0x0;
    0x80; 0x80; 0x0; 0x0; 0x0; 0x0; 0x0; 0x0; 0x0; 0x0; 0x0; 0x0;
    0x40; 0x40; 0x0; 0x0; 0x0; 0x0; 0x0; 0x0; 0x0; 0x0; 0x0; 0x0;
    0x0; 0x80; 0x0; 0x0; 0x0; 0x0; 0x0; 0x0; 0x0; 0x0; 0x0; 0x0;
    0x0; 0x0; 0x0; 0x0; 0x0; 0x0; 0x0; 0x0; 0x0; 0x0; 0x0; 0x0;
    0x14; 0x0; 0x0; 0x0; 0x0; 0x0; 0x0; 0x1; 0x0; 0x0; 0x0; 0x0;
    0x0; 0x0; 0x1; 0x0; 0x0; 0x0; 0x0; 0x0; 0x0; 0x0; 0x0; 0x0;
    0x0; 0x0; 0x0; 0x0; 0x0; 0x0; 0x0; 0x0; 0x0; 0x0; 0x0; 0x0;
    0x0; 0x0; 0x0; 0x0; 0x0; 0x0; 0x0; 0x0; 0x0; 0x0; 0x0; 0x0;
    0x0; 0x0; 0x0; 0x0; 0x0; 0x0; 0x0; 0x0; 0x0; 0x0; 0x0; 0x0;
    0x0; 0x0; 0x0; 0x0; 0x0; 0x0; 0x0; 0x0; 0x0; 0x0; 0x0; 0x0;
    0x0; 0x0; 0x0; 0x0; 0x0; 0x0; 0x0; 0x0; 0x0; 0x0; 0x0; 0x0;
    0x22; 0x22; 0x22; 0x22; 0x22; 0x22; 0x0; 0x0; 0x0; 0x22; 0x17; 0x41;
    0x00; 0x32; 0x36 ].

(** [EPD.lut_full_update]: the full-refresh waveform table (159 bytes). *)
Definition lut_full_update : list Z :=
  [ 0x80; 0x4A; 0x40; 0x0; 0x0; 0x0; 0x0; 0x0; 0x0; 0x0; 0x0; 0x0;
    0x40; 0x4A; 0x80; 0x0; 0x0; 0x0; 0x0; 0x0; 0x0; 0x0; 0x0; 0x0;
    0x80; 0x4A; 0x40; 0x0; 0x0; 0x0; 0x0; 0x0; 0x0; 0x0; 0x0; 0x0;
    0x40; 0x4A; 0x80; 0x0; 0x0; 0x0; 0x0; 0x0; 0x0; 0x0; 0x0; 0x0;
    0x0; 0x0; 0x0; 0x0; 0x0; 0x0; 0x0; 0x0; 0x0; 0x0; 0x0; 0x0;
    0xF; 0x0; 0x0; 0x0; 0x0; 0x0; 0x0; 0xF; 0x0; 0x0; 0xF; 0x0;
    0x0; 0x2; 0xF; 0x0; 0x0; 0x0; 0x0; 0x0; 0x0; 0x1; 0x0; 0x0;
    0x0; 0x0; 0x0; 0x0; 0x0; 0x0; 0x0; 0x0; 0x0; 0x0; 0x0; 0x0;
    0x0; 0x0; 0x0; 0x0; 0x0; 0x0; 0x0; 0x0; 0x0; 0x0; 0x0; 0x0;
    0x0; 0x0; 0x0; 0x0; 0x0; 0x0; 0x0; 0x0; 0x0; 0x0; 0x0; 0x0;
    0x0; 0x0; 0x0; 0x0; 0x0; 0x0; 0x0; 0x0; 0x0; 0x0; 0x0; 0x0;
    0x0; 0x0; 0x0; 0x0; 0x0; 0x0; 0x0; 0x0; 0x0; 0x0; 0x0; 0x0;
    0x22; 0x22; 0x22; 0x22; 0x22; 0x22; 0x0; 0x0; 0x0; 0x22; 0x17; 0x41;
    0x0; 0x32; 0x36 ].

(** ** [epd/epd.py]: the panel driver *)

Definition EPD_WIDTH : Z := 122.
Definition EPD_HEIGHT : Z := 250.

(** [EPD.spi_transfer]: [spi.writebytes([v])]; an I/O failure raises [OSError]. *)
Definition spi_transfer (v : Z) : M unit :=
  fun _ e s =>
    if spi_ok e (nxfer s) then (log_xfer v s, Ok tt) else (s, Raise OSError).

(** [dc_gpio.set_value(v)] and [reset_gpio.set_value(v)]. *)
Definition dc_set_value (v : Z) : M unit := modify (set_dc_level v).
Definition reset_set_value (v : Z) : M unit := modify (log_ev (Rst v)).

(** [EPD.send_command] and [EPD.send_data]. *)
Definition send_command (c : Z) : M unit := dc_set_value 0 ;; spi_transfer c.
Definition send_data (d : Z) : M unit := dc_set_value 1 ;; spi_transfer d.

(** [EPD.wait_busy]: [while busy_gpio.get_value() == 1: epd_delay_ms(10)].
    [n] is the number of polls left in the budget. *)
Fixpoint wait_busy_loop (n : nat) : M unit :=
  fun f e s =>
    if busy_level e (clock s) =? 1 then
      match n with
      | O => (s, Waiting)
      | S n' => (sleep_ms 10 ;; wait_busy_loop n') f e s
      end
    else (s, Ok tt).

Definition wait_busy : M unit := fun f e s => wait_busy_loop f f e s.

(** [EPD.turn_on_display]: full update sequence 0xC7. *)
Definition turn_on_display : M unit :=
  send_command 0x22 ;; send_data 0xC7 ;; send_command 0x20 ;; wait_busy.

(** [EPD.turn_on_display_part]: partial update sequence 0x0F. *)
Definition turn_on_display_part : M unit :=
  send_command 0x22 ;; send_data 0x0F ;; send_command 0x20 ;; wait_busy.

(** [EPD.Lut] *)
Definition Lut (lut : list Z) : M unit :=
  send_command 0x32 ;;
  for_each (range 0 153) (fun i => v <- py_index lut i ;; send_data v) ;;
  wait_busy.

(** [EPD.set_lut] *)
Definition set_lut (lut : list Z) : M unit :=
  Lut lut ;;
  send_command 0x3F ;; v <- py_index lut 153 ;; send_data v ;;
  send_command 0x03 ;; v <- py_index lut 154 ;; send_data v ;;
  send_command 0x04 ;;
  v <- py_index lut 155 ;; send_data v ;;
  v <- py_index lut 156 ;; send_data v ;;
  v <- py_index lut 157 ;; send_data v ;;
  send_command 0x2C ;; v <- py_index lut 158 ;; send_data v.

(** [EPD.set_window] *)
Definition set_window (x_start y_start x_end y_end : Z) : M unit :=
  send_command 0x44 ;;
  send_data (Z.land (Z.shiftr x_start 3) 0xFF) ;;
  send_data (Z.land (Z.shiftr x_end 3) 0xFF) ;;
  send_command 0x45 ;;
  send_data (Z.land y_start 0xFF) ;;
  send_data (Z.land (Z.shiftr y_start 8) 0xFF) ;;
  send_data (Z.land y_end 0xFF) ;;
  send_data (Z.land (Z.shiftr y_end 8) 0xFF).

(** [EPD.SetCursor] *)
Definition SetCursor (x y : Z) : M unit :=
  send_command 0x4E ;;
  send_data (Z.land x 0xFF) ;;
  send_command 0x4F ;;
  send_data (Z.land y 0xFF) ;;
  send_data (Z.land (Z.shiftr y 8) 0xFF).

(** [EPD.reset]: a low pulse on the reset line. *)
Definition reset : M unit :=
  reset_set_value 1 ;; sleep_ms 20 ;;
  reset_set_value 0 ;; sleep_ms 2 ;;
  reset_set_value 1 ;; sleep_ms 20.

(** [EPD.init].  The gpiod line requests at its start have no effect on
    the panel and are not modelled. *)
Definition init : M unit :=
  reset ;;
  wait_busy ;;
  send_command 0x12 ;;
  wait_busy ;;
  send_command 0x01 ;; send_data 0xF9 ;; send_data 0x00 ;; send_data 0x00 ;;
  send_command 0x11 ;; send_data 0x03 ;;
  set_window 0 0 (EPD_WIDTH - 1) (EPD_HEIGHT - 1) ;;
  SetCursor 0 0 ;;
  send_command 0x3C ;; send_data 0x05 ;;
  send_command 0x21 ;; send_data 0x00 ;; send_data 0x80 ;;
  send_command 0x18 ;; send_data 0x80 ;;
  wait_busy ;;
  set_lut lut_full_update.

(** The value [getbuffer] returns: a [bytearray] or a plain Python list. *)
Inductive Buf : Type :=
| PyBytearray (l : list Z)
| PyList (l : list Z).

Definition buf_bytes (b : Buf) : list Z :=
  match b with PyBytearray l => l | PyList l => l end.

(** PIL's [tobytes("raw")] of a mode "1" image: rows top to bottom, each
    padded to whole bytes, pixels packed MSB first, white = 1. *)
Definition pack_byte (img : Image) (y bx : Z) : Z :=
  fold_left (fun acc k =>
      let x := 8 * bx + k in
      if (x <? im_width img) && im_pixel img x y
      then acc + Z.shiftl 1 (7 - k) else acc)
    (range 0 8) 0.

Definition tobytes (img : Image) : list Z :=
  flat_map (fun y => map (pack_byte img y) (range 0 ((im_width img + 7) / 8)))
    (range 0 (im_height img)).

(** PIL's [rotate(90, expand=True)]: a quarter turn counter-clockwise. *)
Definition rotate90 (img : Image) : Image :=
  {| im_width := im_height img;
     im_height := im_width img;
     im_pixel := fun x y => im_pixel img (im_width img - 1 - y) x |}.

(** [EPD.getbuffer]; [convert("1")] is the identity on the mode "1" images
    the views produce. *)
Definition getbuffer (img : Image) : Buf :=
  if (im_width img =? EPD_WIDTH) && (im_height img =? EPD_HEIGHT) then
    PyBytearray (tobytes img)
  else if (im_width img =? EPD_HEIGHT) && (im_height img =? EPD_WIDTH) then
    PyBytearray (tobytes (rotate90 img))
  else
    (* "return a blank buffer" *)
    PyList (repeat 0x00 (Z.to_nat (Z.quot EPD_WIDTH 8 * EPD_HEIGHT))).

(** The [linewidth] computed by [display], [display_partial], ... *)
Definition linewidth : Z :=
  if EPD_WIDTH mod 8 =? 0 then Z.quot EPD_WIDTH 8 else Z.quot EPD_WIDTH 8 + 1.

(** Python's [None] / booleans, for the value [display] returns. *)
Inductive PyObj : Type := PyNone | PyBool (b : bool).

(** [for j in range(height): for i in range(linewidth): send_data(image[i + j*linewidth])] *)
Definition send_frame (image : Buf) : M unit :=
  for_each (range 0 EPD_HEIGHT) (fun j =>
    for_each (range 0 linewidth) (fun i =>
      v <- py_index (buf_bytes image) (i + j * linewidth) ;; send_data v)).

(** [EPD.display]: the full refresh; it returns [None]. *)
Definition display (image : Buf) : M PyObj :=
  send_command 0x24 ;;
  send_frame image ;;
  turn_on_display ;;
  ret PyNone.

(** [EPD.display_partial] *)
Definition display_partial (image : Buf) : M unit :=
  reset_set_value 0 ;; sleep_ms 1 ;; reset_set_value 1 ;;
  set_lut lut_partial_update ;;
  send_command 0x37 ;;
  send_data 0x00 ;; send_data 0x00 ;; send_data 0x00 ;; send_data 0x00 ;;
  send_data 0x00 ;; send_data 0x40 ;; send_data 0x00 ;; send_data 0x00 ;;
  send_data 0x00 ;; send_data 0x00 ;;
  send_command 0x3C ;; send_data 0x80 ;;
  send_command 0x22 ;; send_data 0xC0 ;; send_command 0x20 ;; wait_busy ;;
  set_window 0 0 (EPD_WIDTH - 1) (EPD_HEIGHT - 1) ;;
  SetCursor 0 0 ;;
  send_command 0x24 ;;
  send_frame image ;;
  turn_on_display_part.

(** [EPD.displayPartBaseImage] *)
Definition displayPartBaseImage (image : Buf) : M unit :=
  send_command 0x24 ;; send_frame image ;;
  send_command 0x26 ;; send_frame image ;;
  turn_on_display.

(** [EPD.clear] *)
Definition clear (color : Z) : M unit :=
  send_command 0x24 ;;
  for_each (range 0 EPD_HEIGHT) (fun _ =>
    for_each (range 0 linewidth) (fun _ => send_data color)) ;;
  turn_on_display.

(** [EPD.enter_deep_sleep]: command 0x10 with 0x01, then the three GPIO
    lines are released. *)
Definition enter_deep_sleep : M unit :=
  send_command 0x10 ;; send_data 0x01 ;; sleep_ms 2000 ;;
  modify (log_ev Release) ;; modify (log_ev Release) ;; modify (log_ev Release).

(** ** [leds/leds.py] *)

(** An [LED] object: its number and its sysfs directory [led_path]. *)
Record LED : Type := { led_number : Z; led_path : string }.

Definition mk_LED (number : Z) (color : string) : LED :=
  {| led_number := number;
     led_path := "/sys/class/leds/LED" ++ (if number =? 1 then "1" else if number =? 2 then "2" else "3")
                 ++ "_" ++ color |}.

(** [LED.on] and [LED.off]: write the brightness file. *)
Definition LED_on (led : LED) : M unit :=
  modify (log_ev (Sysfs (led_path led ++ "/brightness") "1")).
Definition LED_off (led : LED) : M unit :=
  modify (log_ev (Sysfs (led_path led ++ "/brightness") "0")).

(** A call [led.blink(args...)].  [LED.blink] is declared [def blink(self)]:
    a call with any positional argument besides [self] raises [TypeError]
    before the body runs. *)
Definition LED_blink (led : LED) (args : list bool) : M bool :=
  match args with
  | [] =>
      timer <- asks (fun e => led_timer_active e (led_path led)) ;;
      if timer then ret false
      else modify (log_ev (Sysfs (led_path led ++ "/trigger") "timer")) ;; ret true
  | _ :: _ => raise TypeError
  end.

(** ** [app/app.py]: the [mapio_ctrl] object and its tasks *)

Definition SCREEN_REFRESH_PERIOD_S : Z := 60.

Definition led_sys_green : LED := mk_LED 1 "G".
Definition led_sys_red : LED := mk_LED 1 "R".
Definition led_chg_green : LED := mk_LED 3 "G".
Definition led_chg_red : LED := mk_LED 3 "R".

(** [views_list] of [MAPIO_CTRL.__init__]; "CUSTOM" when the custom image exists. *)
Definition views_list (custom : bool) : list string :=
  ["HOME"; "STATUS"; "SETUP"; "SYSTEM"]%string ++ (if custom then ["CUSTOM"%string] else []).

(** The attributes [MAPIO_CTRL.__init__] and [EPD.__init__] assign before
    [epd.init()] runs: [is_busy] is not among them. *)
Definition mapio_ctrl_fresh (custom : bool) (t : Z) : St :=
  {| clock := t; dc_level := 0; nxfer := 0; trace := [];
     need_refresh := false; current_view := "HOME";
     views_pool := views_list custom; mid_press := false; is_busy := None |}.

(** [mapio_ctrl.epd.is_busy] read as a condition. *)
Definition read_is_busy : M bool :=
  b <- gets is_busy ;;
  match b with Some v => ret v | None => raise AttributeError end.

(** [mapio_ctrl.views_pool[0]]: [IndexError] on an empty deque. *)
Definition views_pool_head : M string :=
  p <- gets views_pool ;;
  match p with v :: _ => ret v | [] => raise IndexError end.

(** [deque.rotate(-1)] and [deque.rotate(1)]. *)
Definition rotate_left (p : list string) : list string :=
  match p with [] => [] | x :: r => r ++ [x] end.
Definition rotate_right (p : list string) : list string :=
  match rev p with [] => [] | x :: r => x :: rev r end.

(** [MAPIO_CTRL._enable_access_point]: nothing when the access point is
    already active; otherwise a new random password is written into the
    access point's configuration by [sed] and the access point restarted. *)
Definition enable_access_point : M unit :=
  now <- time_now ;;
  active <- asks (fun e => ap_active e now) ;;
  if active then ret tt
  else
    pw <- asks (fun e => ap_password e now) ;;
    let q := String (Ascii.ascii_of_nat 34) EmptyString in
    modify (log_ev (Shell ("sed -i s/psk=.*/psk=" ++ q ++ pw ++ q ++
                           "/g /etc/wpa_supplicant/wpa_supplicant-ap.conf"))) ;;
    modify (log_ev (Shell "systemctl stop wpa_supplicant@wlan0")) ;;
    modify (log_ev (Shell "systemctl restart wpa_supplicant-ap")).

(** [MAPIO_CTRL._generate_setup_view]: its effects on the process and the
    services; the pixels it draws are those of [render e "SETUP"].  A
    pending MID press stops a running web server, or starts a stopped one
    and then sets [mapio_ctrl.need_refresh]; either way [mid_press] is
    cleared. *)
Definition generate_setup_view : M Image :=
  now <- time_now ;;
  running <- asks (fun e => webserver_active e now) ;;
  (if running then
     ping <- asks (fun e => ping_ok e now) ;;
     (if ping then ret tt else enable_access_point) ;;
     mid <- gets mid_press ;;
     if mid then
       modify (set_mid_press_st false) ;;
       modify (log_ev (Shell "systemctl stop mapio-webserver-back")) ;;
       modify (log_ev (Shell "systemctl stop nginx")) ;;
       modify (log_ev (Shell "systemctl stop wpa_supplicant-ap"))
     else ret tt
   else
     mid <- gets mid_press ;;
     if mid then
       modify (set_mid_press_st false) ;;
       modify (log_ev (Shell "systemctl start mapio-webserver-back")) ;;
       modify (log_ev (Shell "systemctl start nginx")) ;;
       modify (set_need_refresh_st true)
     else ret tt) ;;
  asks (fun e => render e "SETUP").

(** [MAPIO_CTRL.get_current_buffered_image]: the view generator chosen by
    [current_view], then [epd.getbuffer]; an unknown view leaves [image]
    unbound.  The generators other than the SETUP one only query the
    system. *)
Definition get_current_buffered_image : M Buf :=
  v <- gets current_view ;;
  if existsb (String.eqb v) ["HOME"; "SYSTEM"; "STATUS"; "SETUP"; "CUSTOM"]%string
  then img <- (if String.eqb v "SETUP" then generate_setup_view
               else asks (fun e => render e v)) ;;
       ret (getbuffer img)
  else raise NameError.

(** [hashlib.sha256().update(image_array)] then [hexdigest()]: a plain
    list is not a bytes-like object. *)
Definition sha256_of (b : Buf) : M string :=
  match b with
  | PyBytearray l => asks (fun e => sha256_hex e l)
  | PyList _ => raise TypeError
  end.

(** [prev_hash]: the int 0 at start, then a hex digest string. *)
Inductive PyHash : Type := HInt (z : Z) | HStr (s : string).

(** [new_hash != prev_hash] *)
Definition hash_ne (a b : PyHash) : bool :=
  match a, b with
  | HStr x, HStr y => negb (String.eqb x y)
  | HInt x, HInt y => negb (x =? y)
  | _, _ => true
  end.

(** [x is False] *)
Definition is_False (o : PyObj) : bool :=
  match o with PyBool false => true | _ => false end.

(** Python's [round()] of a time in seconds, given in ms (half to even). *)
Definition py_round_ms (t : Z) : Z :=
  let q := t / 1000 in
  let r := t mod 1000 in
  if r <? 500 then q else if 500 <? r then q + 1 else if Z.even q then q else q + 1.

(** The locals of [refresh_screen_task]. *)
Record RLocals : Type := { next_refresh_time : Z; prev_hash : PyHash }.

(** The body of the [if] of [refresh_screen_task]'s loop: one refresh cycle. *)
Definition refresh_cycle (st : RLocals) : M RLocals :=
  init ;;
  modify (set_is_busy_st (Some true)) ;;
  now <- time_now ;;
  let next := py_round_ms now in
  modify (set_need_refresh_st false) ;;
  v <- views_pool_head ;;
  modify (set_current_view_st v) ;;
  image_array <- get_current_buffered_image ;;
  new_hash <- sha256_of image_array ;;
  if hash_ne (HStr new_hash) (prev_hash st) then
    LED_blink led_sys_green [true] ;;
    r <- display image_array ;;
    if is_False r then
      modify (set_need_refresh_st true) ;;
      ret {| next_refresh_time := next; prev_hash := HInt 0 |}
    else ret {| next_refresh_time := next; prev_hash := HStr new_hash |}
  else
    modify (set_is_busy_st (Some false)) ;;
    ret {| next_refresh_time := next; prev_hash := prev_hash st |}.

(** The condition of that [if]: the period elapsed or [need_refresh]. *)
Definition refresh_due (st : RLocals) (s : St) : bool :=
  (next_refresh_time st + SCREEN_REFRESH_PERIOD_S <? py_round_ms (clock s))
  || need_refresh s.

(** One iteration of [while True] in [refresh_screen_task]. *)
Definition refresh_tick (st : RLocals) : M RLocals :=
  s <- gets (fun s => s) ;;
  st' <- (if refresh_due st s then refresh_cycle st else ret st) ;;
  sleep_ms 500 ;;
  ret st'.

Fixpoint refresh_loop (n : nat) (st : RLocals) : M RLocals :=
  match n with
  | O => ret st
  | S n' => st' <- refresh_tick st ;; refresh_loop n' st'
  end.

(** [refresh_screen_task] run for its first [n] iterations. *)
Definition refresh_screen_task (n : nat) : M RLocals :=
  now <- time_now ;;
  refresh_loop n {| next_refresh_time := py_round_ms now; prev_hash := HInt 0 |}.

(** The [k]-th call [mapio_ctrl.get_battery_state()] of an iteration of
    [refresh_leds_task]: each branch test of its [if]/[elif] chain calls
    it again. *)
Definition read_battery_state (k : nat) : M BatteryState :=
  now <- time_now ;;
  r <- asks (fun e => battery_state e now k) ;;
  match r with Some b => ret b | None => raise ValueError end.

(** One iteration of [while True] in [refresh_leds_task]. *)
Definition refresh_leds_iteration : M unit :=
  busy <- read_is_busy ;;
  now <- time_now ;;
  docker <- asks (fun e => docker_active e now) ;;
  (if busy then ret tt
   else if docker then
     LED_blink led_sys_green [false] ;; LED_on led_sys_green ;; LED_off led_sys_red
   else
     LED_blink led_sys_green [false] ;; LED_on led_sys_green ;; LED_on led_sys_red) ;;
  b1 <- read_battery_state 0 ;;
  (match b1 with
   | powered => LED_off led_chg_red ;; LED_on led_chg_green
   | _ =>
       b2 <- read_battery_state 1 ;;
       match b2 with
       | on_battery =>
           LED_off led_chg_green ;; LED_off led_chg_red ;;
           LED_on led_chg_green ;; LED_on led_chg_red
       | _ =>
           b3 <- read_battery_state 2 ;;
           match b3 with
           | critical => LED_on led_chg_red ;; LED_off led_chg_green
           | _ => ret tt
           end
       end
   end) ;;
  sleep_ms 1000.

(** A button line as [_gpio_chip_handler] sees it: its consumer name and
    the level [get_value()] reads at each time. *)
Record Line : Type := { consumer : string; line_value : Z -> Z }.

(** The long-press poll of MID: [for _ in range(30)] reads the line every
    100 ms and stops at the first non-zero level. *)
Fixpoint mid_long_press (l : Line) (n : nat) : M bool :=
  match n with
  | O => ret true
  | S n' =>
      t <- time_now ;;
      if line_value l t =? 0 then sleep_ms 100 ;; mid_long_press l n'
      else ret false
  end.

(** The handling of one event read on line [l] by [_gpio_chip_handler]:
    [last] is its local [last_event_time]; the new value is returned. *)
Definition handle_event (last : Z) (l : Line) : M Z :=
  current_time <- time_now ;;
  if current_time - last >? 3000 then
    busy <- read_is_busy ;;
    (if busy then ret tt
     else if String.eqb (consumer l) "UP" then
       modify (set_need_refresh_st true) ;;
       p <- gets views_pool ;; modify (set_views_pool_st (rotate_left p)) ;;
       LED_blink led_sys_green [true] ;; ret tt
     else if String.eqb (consumer l) "DOWN" then
       modify (set_need_refresh_st true) ;;
       p <- gets views_pool ;; modify (set_views_pool_st (rotate_right p)) ;;
       LED_blink led_sys_green [true] ;; ret tt
     else if String.eqb (consumer l) "MID" then
       long_pressed <- mid_long_press l 30 ;;
       (if long_pressed then
          LED_off led_sys_green ;; LED_on led_sys_red ;; modify (log_ev (Shell "reboot"))
        else ret tt) ;;
       modify (set_need_refresh_st true) ;;
       modify (set_mid_press_st true) ;;
       LED_blink led_sys_green [true] ;; ret tt
     else ret tt) ;;
    ret current_time
  else ret last.

(** ** The panel's state, read off what the driver sent

    The Python code keeps no panel state; the spec's [PanelState] is the
    controller's, and is read here from the I/O log, newest event first:
    the deep-sleep command 0x10 puts the controller to sleep; a low level
    on the reset line resets it (Uninitialized); loading a waveform table (command 0x32, the last
    configuration step of [init]) leaves it configured; while the BUSY pin
    is high a configured panel is Busy. *)
Inductive PanelState : Type := Uninitialized | Idle | Busy | Sleeping.

(** The controller mode an event sets, if any. *)
Definition mode_of_event (x : Ev) : option PanelState :=
  match x with
  | Xfer dc c =>
      if dc =? 0 then
        if c =? 0x10 then Some Sleeping else if c =? 0x32 then Some Idle else None
      else None
  | Rst v => if v =? 0 then Some Uninitialized else None
  | _ => None
  end.

Fixpoint controller_mode (evs : list Ev) : PanelState :=
  match evs with
  | [] => Uninitialized
  | x :: evs' =>
      match mode_of_event x with Some m => m | None => controller_mode evs' end
  end.

Definition panel_state (e : Env) (s : St) : PanelState :=
  match controller_mode (trace s) with
  | Idle => if busy_level e (clock s) =? 1 then Busy else Idle
  | m => m
  end.

(** Bus commands (bytes sent with DC low) in a slice of the log. *)
Definition commands (evs : list Ev) : list Z :=
  flat_map (fun x => match x with Xfer dc c => if dc =? 0 then [c] else [] | _ => [] end) evs.

(** ** What a statement leaves unchanged

    [Preserves R m]: every run of [m] relates its initial and final states
    by [R].  The Section derives it for the driver from its primitive
    state changes; it is used below with two relations: the attributes of
    [mapio_ctrl] are unchanged, and the log grows by events of a given
    kind only. *)
Definition Preserves (R : St -> St -> Prop) {A} (m : M A) : Prop :=
  forall f e s, R s (fst (m f e s)).


(** ** Definitions used by the proofs and the test fixtures *)

Definition init_cmds : list Z :=
  [0x12; 0x01; 0x11; 0x44; 0x45; 0x4E; 0x4F; 0x3C; 0x21; 0x18;
   0x32; 0x3F; 0x03; 0x04; 0x2C].

(** [MAPIO_CTRL.__init__] after the attribute assignments: [epd.init()],
    [time.sleep(0.5)], the base image of the current view, the four LEDs
    off. *)
Definition MAPIO_CTRL_init : M unit :=
  init ;;
  sleep_ms 500 ;;
  b <- get_current_buffered_image ;;
  displayPartBaseImage b ;;
  for_each [led_sys_green; led_sys_red; led_chg_green; led_chg_red] LED_off.

Definition app_same (s s' : St) : Prop :=
  need_refresh s' = need_refresh s /\ current_view s' = current_view s /\
  views_pool s' = views_pool s /\ mid_press s' = mid_press s /\
  is_busy s' = is_busy s.


Definition quiet (bad : Ev -> bool) (s s' : St) : Prop :=
  exists evs, trace s' = evs ++ trace s /\ existsb bad evs = false.

(** The command [c0] sent with DC low. *)
Definition is_cmd (c0 : Z) (x : Ev) : bool :=
  match x with Xfer dc c => (dc =? 0) && (c =? c0) | _ => false end.

(** An event that changes the controller mode. *)
Definition mode_event (x : Ev) : bool :=
  match mode_of_event x with Some _ => true | None => false end.

Definition Ensures (P : Env -> St -> Prop) {A} (m : M A) : Prop :=
  forall f e s s' a, m f e s = (s', Ok a) -> P e s'.

(** The BUSY pin reads low when a busy-wait returns. *)
Definition busy_low (e : Env) (s : St) : Prop := (busy_level e (clock s) =? 1) = false.

Definition mode_idle (_ : Env) (s : St) : Prop := controller_mode (trace s) = Idle.

Definition mode_cmd_ok (c : Z) : bool := negb (mode_event (Xfer 0 c)).

Definition mode_rst_ok (v : Z) : bool := negb (mode_event (Rst v)).

Definition never_ok (e : Env) {A} (m : M A) : Prop :=
  forall f s a, snd (m f e s) <> Ok a.

(** An all-white frame in the panel's geometry (122 x 250). *)
Definition white_image : Image :=
  {| im_width := EPD_WIDTH; im_height := EPD_HEIGHT; im_pixel := fun _ _ => true |}.

Definition white_buf : Buf := getbuffer white_image.

(** A stand-in digest that tells a blank frame from one with ink. *)
Definition test_digest (l : list Z) : string :=
  if forallb (fun b => (b =? 0xFF) || (b =? 0xC0)) l then "blank" else "ink".

(** Working hardware: BUSY low, every transfer succeeds, docker active. *)
Definition env_ok : Env :=
  {| busy_level := fun _ => 0; spi_ok := fun _ => true;
     render := fun _ => white_image; sha256_hex := test_digest;
     docker_active := fun _ => true; battery_state := fun _ _ => Some powered;
     led_timer_active := fun _ => false; webserver_active := fun _ => true;
     ping_ok := fun _ => true; ap_active := fun _ => true; ap_password := fun _ => "mapiowfi"%string |}.

(** A panel whose BUSY line stays high. *)
Definition env_stuck : Env :=
  {| busy_level := fun _ => 1; spi_ok := fun _ => true;
     render := fun _ => white_image; sha256_hex := test_digest;
     docker_active := fun _ => true; battery_state := fun _ _ => Some powered;
     led_timer_active := fun _ => false; webserver_active := fun _ => true;
     ping_ok := fun _ => true; ap_active := fun _ => true; ap_password := fun _ => "mapiowfi"%string |}.

Definition s_fresh : St := mapio_ctrl_fresh false 0.

Definition s_after_init : St := fst (init 100%nat env_ok s_fresh).

(** The bytes and reset levels [init] sends, newest first: those of a run
    from a fresh process. *)
Definition init_events : list Ev := trace (fst (init 0%nat env_ok s_fresh)).

(** A bus whose sixth transfer and all later ones fail. *)
Definition env_spi_fail : Env :=
  {| busy_level := fun _ => 0; spi_ok := fun n => Nat.ltb n 5;
     render := fun _ => white_image; sha256_hex := test_digest;
     docker_active := fun _ => true; battery_state := fun _ _ => Some powered;
     led_timer_active := fun _ => false; webserver_active := fun _ => true;
     ping_ok := fun _ => true; ap_active := fun _ => true; ap_password := fun _ => "mapiowfi"%string |}.

(** A fresh process whose [need_refresh] has been set. *)
Definition s_dirty : St := set_need_refresh_st true s_fresh.

Definition st0 : RLocals := {| next_refresh_time := 0; prev_hash := HInt 0 |}.

(** A 100 x 100 all-white view: neither the panel geometry nor its transpose. *)
Definition small_image : Image :=
  {| im_width := 100; im_height := 100; im_pixel := fun _ _ => true |}.

Definition env_small : Env :=
  {| busy_level := fun _ => 0; spi_ok := fun _ => true;
     render := fun _ => small_image; sha256_hex := test_digest;
     docker_active := fun _ => true; battery_state := fun _ _ => Some powered;
     led_timer_active := fun _ => false; webserver_active := fun _ => true;
     ping_ok := fun _ => true; ap_active := fun _ => true; ap_password := fun _ => "mapiowfi"%string |}.

(** The length of a packed frame: [linewidth] bytes per row, 250 rows. *)
Definition frame_length : Z := linewidth * EPD_HEIGHT.

Definition st_blank : RLocals := {| next_refresh_time := 0; prev_hash := HStr "blank" |}.


Definition up_line : Line := {| consumer := "UP"; line_value := fun _ => 0 |}.

(** The process at time [t] (ms), with [is_busy] assigned [b]. *)
Definition s_at (b : bool) (t : Z) : St := set_clock t (set_is_busy_st (Some b) s_fresh).

Definition known_view (v : string) : bool :=
  existsb (String.eqb v) ["HOME"; "SYSTEM"; "STATUS"; "SETUP"; "CUSTOM"]%string.

Definition led1_event (x : Ev) : bool :=
  match x with Sysfs p _ => String.prefix "/sys/class/leds/LED1_" p | _ => false end.

(** The state of a fresh process after [refresh_screen_task] has run its
    first 130 ticks (65 s): the first cycle ran and raised. *)
Definition s_after_task : St := fst (refresh_screen_task 130 100%nat env_ok s_fresh).

(** ** Byte-level states, LED-task and setup-view fixtures, PMIC queries *)

(** The state after a successful [send_data v]: D/C driven high, then the
    byte on the bus. *)
Definition send_data_st (v : Z) (s : St) : St := log_xfer v (set_dc_level 1 s).

(** The state after a successful [send_data] of each byte of [vs], in order. *)
Definition send_bytes_st (vs : list Z) (s : St) : St :=
  fold_left (fun s v => send_data_st v s) vs s.

(** The state after [turn_on_display] on working hardware with BUSY low:
    command 0x22, data 0xC7, command 0x20. *)
Definition turn_on_st (s : St) : St :=
  log_xfer 0x20 (set_dc_level 0 (send_data_st 0xC7 (log_xfer 0x22 (set_dc_level 0 s)))).

(** A landscape (250x122) image, white on its left half. *)
Definition landscape_image : Image :=
  {| im_width := EPD_HEIGHT; im_height := EPD_WIDTH; im_pixel := fun x _ => x <? 125 |}.

(** The MID button held down for good, and a MID tap released at 4.5 s. *)
Definition mid_line_held : Line := {| consumer := "MID"; line_value := fun _ => 0 |}.
Definition mid_line_tap : Line := {| consumer := "MID"; line_value := fun t => if t <? 4500 then 0 else 1 |}.

(** A panel whose BUSY line is high for its first 30 ms. *)
Definition env_busy_30ms : Env :=
  {| busy_level := fun t => if t <? 30 then 1 else 0; spi_ok := fun _ => true;
     render := fun _ => white_image; sha256_hex := test_digest;
     docker_active := fun _ => true; battery_state := fun _ _ => Some powered;
     led_timer_active := fun _ => false; webserver_active := fun _ => true;
     ping_ok := fun _ => true; ap_active := fun _ => true; ap_password := fun _ => "mapiowfi"%string |}.

(** The battery readings of one LED-task iteration change between the
    three [get_battery_state()] calls: on battery, then critical, then
    powered. *)
Definition env_battery_flip : Env :=
  {| busy_level := fun _ => 0; spi_ok := fun _ => true;
     render := fun _ => white_image; sha256_hex := test_digest;
     docker_active := fun _ => true;
     battery_state := fun _ k => match k with
                                 | O => Some on_battery
                                 | S O => Some critical
                                 | _ => Some powered
                                 end;
     led_timer_active := fun _ => false; webserver_active := fun _ => true;
     ping_ok := fun _ => true; ap_active := fun _ => true; ap_password := fun _ => "mapiowfi"%string |}.

(** The first battery query of an iteration gets an unparsable register. *)
Definition env_battery_err : Env :=
  {| busy_level := fun _ => 0; spi_ok := fun _ => true;
     render := fun _ => white_image; sha256_hex := test_digest;
     docker_active := fun _ => true; battery_state := fun _ _ => None;
     led_timer_active := fun _ => false; webserver_active := fun _ => true;
     ping_ok := fun _ => true; ap_active := fun _ => true; ap_password := fun _ => "mapiowfi"%string |}.

(** The webserver is stopped. *)
Definition env_web_down : Env :=
  {| busy_level := fun _ => 0; spi_ok := fun _ => true;
     render := fun _ => white_image; sha256_hex := test_digest;
     docker_active := fun _ => true; battery_state := fun _ _ => Some powered;
     led_timer_active := fun _ => false; webserver_active := fun _ => false;
     ping_ok := fun _ => true; ap_active := fun _ => true; ap_password := fun _ => "mapiowfi"%string |}.

(** The SETUP view is current and MID has been pressed. *)
Definition s_setup_mid : St :=
  set_mid_press_st true (set_current_view_st "SETUP" (s_at true 0)).

(** [str.isspace] on the ASCII characters: tab, line feed, vertical tab,
    form feed, carriage return, the separators 0x1C to 0x1F and space.
    The command outputs read by the PMIC queries are ASCII. *)
Definition is_py_space (c : ascii) : bool :=
  let n := nat_of_ascii c in ((9 <=? n) && (n <=? 13))%nat || ((28 <=? n) && (n <=? 32))%nat.

Fixpoint drop_spaces (cs : list ascii) : list ascii :=
  match cs with
  | [] => []
  | c :: r => if is_py_space c then drop_spaces r else cs
  end.

(** [str.strip()] with no argument. *)
Definition py_strip (s : string) : string :=
  string_of_list_ascii (rev (drop_spaces (rev (drop_spaces (list_ascii_of_string s))))).

(** [MAPIO_CTRL._get_battery_voltage]: [model] is what [vcgencmd pmicrd 0]
    printed, [reg_1d] and [reg_13] the values [int(.., 16)] parses from the
    registers 0x1d (MXL7704) and 0x13 (DA9090); only the one of the
    detected PMIC is used (an output that does not parse, a [ValueError],
    is outside the model).  The voltage is returned in hundredths of a
    volt, [N = 2 * r] or [N = 4 * r]: the float [N / 100] is correctly
    rounded, rounding is monotone and 4, 3.75, 3.5 and 3.25 are exact in
    binary, so [N / 100 > c] holds exactly when [N > 100 * c]. *)
Definition get_battery_voltage (model : string) (reg_1d reg_13 : Z) : Z * Z :=
  let battery_volt := if String.eqb (py_strip model) "a0" then 2 * reg_1d else 4 * reg_13 in
  let percent :=
    if 400 <? battery_volt then 100
    else if 375 <? battery_volt then 75
    else if 350 <? battery_volt then 50
    else if 325 <? battery_volt then 25
    else 0 in
  (battery_volt, percent).

(** [MAPIO_CTRL.get_battery_state]: [chg_boost] is what
    [gpioget --numeric -c 2 10] printed. *)
Definition get_battery_state (chg_boost model : string) (reg_1d reg_13 : Z) : BatteryState :=
  if String.eqb (py_strip chg_boost) "0" then on_battery
  else if snd (get_battery_voltage model reg_1d reg_13) <=? 25 then critical
  else powered.

Lemma forallb_in {A} (p : A -> bool) (l : list A) (x : A) :
  forallb p l = true -> In x l -> p x = true.
Proof. intros H Hx. exact (proj1 (forallb_forall p l) H x Hx). Qed.

Section Driver_preservation.
Variable R : St -> St -> Prop.
Variables cmd_ok rst_ok : Z -> bool.
Hypothesis R_refl : forall s, R s s.
Hypothesis R_trans : forall s1 s2 s3, R s1 s2 -> R s2 s3 -> R s1 s3.
Hypothesis R_clock : forall s t, R s (set_clock t s).
Hypothesis R_dc : forall s v, R s (set_dc_level v s).
Hypothesis R_data : forall s v, R s (log_xfer v (set_dc_level 1 s)).
Hypothesis R_cmd : forall s c, cmd_ok c = true -> R s (log_xfer c (set_dc_level 0 s)).
Hypothesis R_rst : forall s v, rst_ok v = true -> R s (log_ev (Rst v) s).

Lemma pres_ret {A} (a : A) : Preserves R (ret a).
Proof. intros f e s. apply R_refl. Qed.

Lemma pres_raise {A} (x : Exc) : Preserves R (@raise A x).
Proof. intros f e s. apply R_refl. Qed.

Lemma pres_gets {A} (g : St -> A) : Preserves R (gets g).
Proof. intros f e s. apply R_refl. Qed.

Lemma pres_asks {A} (g : Env -> A) : Preserves R (asks g).
Proof. intros f e s. apply R_refl. Qed.

Lemma pres_bind {A B} (m : M A) (k : A -> M B) :
  Preserves R m -> (forall a, Preserves R (k a)) -> Preserves R (bind m k).
Proof.
  intros Hm Hk f e s. unfold bind. specialize (Hm f e s).
  destruct (m f e s) as [s1 [a|x|]]; cbn in *; auto.
  eapply R_trans; [exact Hm | apply Hk].
Qed.

Lemma pres_sleep_ms d : Preserves R (sleep_ms d).
Proof. intros f e s. apply R_clock. Qed.

Lemma pres_send_data d : Preserves R (send_data d).
Proof.
  intros f e s. unfold send_data, bind, dc_set_value, modify, spi_transfer.
  cbn. destruct (spi_ok e _); cbn; auto.
Qed.

Lemma pres_send_command c : cmd_ok c = true -> Preserves R (send_command c).
Proof.
  intros Hc f e s. unfold send_command, bind, dc_set_value, modify, spi_transfer.
  cbn. destruct (spi_ok e _); cbn; auto.
Qed.

Lemma pres_reset_set_value v : rst_ok v = true -> Preserves R (reset_set_value v).
Proof. intros Hv f e s. apply R_rst, Hv. Qed.

Lemma pres_wait_busy_loop n : Preserves R (wait_busy_loop n).
Proof.
  induction n as [|n IH]; intros f e s; cbn [wait_busy_loop];
    destruct (busy_level e (clock s) =? 1); cbn [fst]; try apply R_refl.
  apply (pres_bind _ _ (pres_sleep_ms 10) (fun _ => IH)).
Qed.

Lemma pres_wait_busy : Preserves R wait_busy.
Proof. intros f e s. apply pres_wait_busy_loop. Qed.

Lemma pres_for_each {A} (xs : list A) (body : A -> M unit) :
  (forall x, Preserves R (body x)) -> Preserves R (for_each xs body).
Proof.
  intros Hb. induction xs as [|x xs IH]; cbn.
  - apply pres_ret.
  - apply pres_bind; auto.
Qed.

Lemma pres_py_index xs i : Preserves R (py_index xs i).
Proof.
  unfold py_index. destruct (i <? 0); [apply pres_raise|].
  destruct (nth_error xs (Z.to_nat i)); [apply pres_ret | apply pres_raise].
Qed.

Ltac pres_go :=
  repeat match goal with
  | |- Preserves _ (bind _ _) => apply pres_bind; [ | intros ? ]
  | |- Preserves _ (ret _) => apply pres_ret
  | |- Preserves _ (raise _) => apply pres_raise
  | |- Preserves _ (send_data _) => apply pres_send_data
  | |- Preserves _ (py_index _ _) => apply pres_py_index
  | |- Preserves _ (sleep_ms _) => apply pres_sleep_ms
  | |- Preserves _ wait_busy => apply pres_wait_busy
  | |- Preserves _ (for_each _ _) => apply pres_for_each; intros ?
  | H : forallb cmd_ok ?l = true |- Preserves _ (send_command _) =>
      apply pres_send_command; apply (forallb_in _ _ _ H); cbn; intuition
  | H : forallb rst_ok ?l = true |- Preserves _ (reset_set_value _) =>
      apply pres_reset_set_value; apply (forallb_in _ _ _ H); cbn; intuition
  end.

Lemma pres_turn_on_display :
  forallb cmd_ok [0x22; 0x20] = true -> Preserves R turn_on_display.
Proof. intros H. unfold turn_on_display. pres_go. Qed.

Lemma pres_turn_on_display_part :
  forallb cmd_ok [0x22; 0x20] = true -> Preserves R turn_on_display_part.
Proof. intros H. unfold turn_on_display_part. pres_go. Qed.

Lemma pres_set_lut lut :
  forallb cmd_ok [0x32; 0x3F; 0x03; 0x04; 0x2C] = true -> Preserves R (set_lut lut).
Proof. intros H. unfold set_lut, Lut. pres_go. Qed.

Lemma pres_set_window a b c d :
  forallb cmd_ok [0x44; 0x45] = true -> Preserves R (set_window a b c d).
Proof. intros H. unfold set_window. pres_go. Qed.

Lemma pres_SetCursor x y :
  forallb cmd_ok [0x4E; 0x4F] = true -> Preserves R (SetCursor x y).
Proof. intros H. unfold SetCursor. pres_go. Qed.

Lemma pres_init :
  forallb cmd_ok init_cmds = true -> forallb rst_ok [0; 1] = true -> Preserves R init.
Proof.
  intros H Hr. unfold init, reset. pres_go.
  - apply pres_set_window. cbn in *. rewrite !andb_true_iff in *. tauto.
  - apply pres_SetCursor. cbn in *. rewrite !andb_true_iff in *. tauto.
  - apply pres_set_lut. cbn in *. rewrite !andb_true_iff in *. tauto.
Qed.

Lemma pres_send_frame image : Preserves R (send_frame image).
Proof. unfold send_frame. pres_go. Qed.

Lemma pres_display image :
  forallb cmd_ok [0x24; 0x22; 0x20] = true -> Preserves R (display image).
Proof.
  intros H. unfold display. pres_go.
  - apply pres_send_frame.
  - apply pres_turn_on_display. cbn in *. rewrite !andb_true_iff in *. tauto.
Qed.

Lemma pres_display_partial image :
  forallb cmd_ok [0x32; 0x3F; 0x03; 0x04; 0x2C; 0x37; 0x3C; 0x22; 0x20;
                  0x44; 0x45; 0x4E; 0x4F; 0x24] = true ->
  forallb rst_ok [0; 1] = true ->
  Preserves R (display_partial image).
Proof.
  intros H Hr. unfold display_partial. pres_go.
  - apply pres_set_lut. cbn in *. rewrite !andb_true_iff in *. tauto.
  - apply pres_set_window. cbn in *. rewrite !andb_true_iff in *. tauto.
  - apply pres_SetCursor. cbn in *. rewrite !andb_true_iff in *. tauto.
  - apply pres_send_frame.
  - apply pres_turn_on_display_part. cbn in *. rewrite !andb_true_iff in *. tauto.
Qed.
End Driver_preservation.

Section App_preservation.
Variable R : St -> St -> Prop.
Variables cmd_ok rst_ok : Z -> bool.
Hypothesis R_refl : forall s, R s s.
Hypothesis R_trans : forall s1 s2 s3, R s1 s2 -> R s2 s3 -> R s1 s3.
Hypothesis R_clock : forall s t, R s (set_clock t s).
Hypothesis R_dc : forall s v, R s (set_dc_level v s).
Hypothesis R_data : forall s v, R s (log_xfer v (set_dc_level 1 s)).
Hypothesis R_cmd : forall s c, cmd_ok c = true -> R s (log_xfer c (set_dc_level 0 s)).
Hypothesis R_rst : forall s v, rst_ok v = true -> R s (log_ev (Rst v) s).
Hypothesis R_sysfs : forall s p v, R s (log_ev (Sysfs p v) s).
Hypothesis R_is_busy : forall s b, R s (set_is_busy_st b s).
Hypothesis R_need : forall s b, R s (set_need_refresh_st b s).
Hypothesis R_view : forall s v, R s (set_current_view_st v s).
Hypothesis R_mid : forall s b, R s (set_mid_press_st b s).
Hypothesis R_shell : forall s c, R s (log_ev (Shell c) s).
Hypothesis Hcmd : forallb cmd_ok (init_cmds ++ [0x24; 0x22; 0x20; 0x26]) = true.
Hypothesis Hrst : forallb rst_ok [0; 1] = true.

Lemma pres_modify (g : St -> St) : (forall s, R s (g s)) -> Preserves R (modify g).
Proof. intros H f e s. apply H. Qed.

Let Hinit : forallb cmd_ok init_cmds = true.
Proof. rewrite forallb_app in Hcmd. apply andb_true_iff in Hcmd. tauto. Qed.

Let Hdisp : forallb cmd_ok [0x24; 0x22; 0x20] = true.
Proof.
  rewrite forallb_app in Hcmd. apply andb_true_iff in Hcmd. cbn in Hcmd.
  cbn. rewrite !andb_true_iff in *. tauto.
Qed.

Lemma pres_LED_blink led args : Preserves R (LED_blink led args).
Proof.
  destruct args; cbn [LED_blink].
  - apply (pres_bind R R_trans); [apply pres_asks; assumption | intros []].
    + apply pres_ret; assumption.
    + apply (pres_bind R R_trans); [apply pres_modify; auto | intros; apply pres_ret; assumption].
  - apply pres_raise; assumption.
Qed.

Lemma pres_enable_access_point : Preserves R enable_access_point.
Proof.
  unfold enable_access_point.
  apply (pres_bind R R_trans); [apply pres_gets; assumption | intros now].
  apply (pres_bind R R_trans); [apply pres_asks; assumption | intros [|]].
  - apply pres_ret; assumption.
  - apply (pres_bind R R_trans); [apply pres_asks; assumption | intros pw].
    apply (pres_bind R R_trans); [apply pres_modify; auto | intros _].
    apply (pres_bind R R_trans); [apply pres_modify; auto | intros _].
    apply pres_modify; auto.
Qed.

Lemma pres_generate_setup_view : Preserves R generate_setup_view.
Proof.
  unfold generate_setup_view.
  apply (pres_bind R R_trans); [apply pres_gets; assumption | intros now].
  apply (pres_bind R R_trans); [apply pres_asks; assumption | intros running].
  apply (pres_bind R R_trans); [| intros _; apply pres_asks; assumption].
  destruct running.
  - apply (pres_bind R R_trans); [apply pres_asks; assumption | intros ping].
    apply (pres_bind R R_trans).
    { destruct ping; [apply pres_ret; assumption | apply pres_enable_access_point]. }
    intros _. apply (pres_bind R R_trans); [apply pres_gets; assumption | intros [|]].
    + repeat (apply (pres_bind R R_trans); [apply pres_modify; auto | intros _]).
      apply pres_modify; auto.
    + apply pres_ret; assumption.
  - apply (pres_bind R R_trans); [apply pres_gets; assumption | intros [|]].
    + repeat (apply (pres_bind R R_trans); [apply pres_modify; auto | intros _]).
      apply pres_modify; auto.
    + apply pres_ret; assumption.
Qed.

Lemma pres_get_current_buffered_image : Preserves R get_current_buffered_image.
Proof.
  unfold get_current_buffered_image.
  apply (pres_bind R R_trans); [apply pres_gets; assumption | intros v].
  destruct (existsb _ _); [| apply pres_raise; assumption].
  apply (pres_bind R R_trans); [| intros; apply pres_ret; assumption].
  destruct (String.eqb v "SETUP"); [apply pres_generate_setup_view | apply pres_asks; assumption].
Qed.

Lemma pres_refresh_cycle st : Preserves R (refresh_cycle st).
Proof.
  unfold refresh_cycle.
  apply (pres_bind R R_trans); [apply (pres_init R cmd_ok rst_ok); assumption | intros _].
  apply (pres_bind R R_trans); [apply pres_modify; auto | intros _].
  apply (pres_bind R R_trans); [apply pres_gets; assumption | intros now].
  apply (pres_bind R R_trans); [apply pres_modify; auto | intros _].
  apply (pres_bind R R_trans).
  { unfold views_pool_head. apply (pres_bind R R_trans); [apply pres_gets; assumption | intros [|v p]].
    - apply pres_raise; assumption.
    - apply pres_ret; assumption. }
  intros v.
  apply (pres_bind R R_trans); [apply pres_modify; auto | intros _].
  apply (pres_bind R R_trans); [apply pres_get_current_buffered_image | intros b].
  apply (pres_bind R R_trans).
  { destruct b; cbn [sha256_of]; [apply pres_asks | apply pres_raise]; assumption. }
  intros h. destruct (hash_ne _ _).
  - apply (pres_bind R R_trans); [apply pres_LED_blink | intros _].
    apply (pres_bind R R_trans); [apply (pres_display R cmd_ok); assumption | intros r].
    destruct (is_False r).
    + apply (pres_bind R R_trans); [apply pres_modify; auto | intros; apply pres_ret; assumption].
    + apply pres_ret; assumption.
  - apply (pres_bind R R_trans); [apply pres_modify; auto | intros; apply pres_ret; assumption].
Qed.

Lemma pres_refresh_tick st : Preserves R (refresh_tick st).
Proof.
  unfold refresh_tick.
  apply (pres_bind R R_trans); [apply pres_gets; assumption | intros s].
  apply (pres_bind R R_trans).
  { destruct (refresh_due st s); [apply pres_refresh_cycle | apply pres_ret; assumption]. }
  intros st'. apply (pres_bind R R_trans); [apply pres_sleep_ms; assumption | intros; apply pres_ret; assumption].
Qed.

Lemma pres_refresh_loop n st : Preserves R (refresh_loop n st).
Proof.
  revert st. induction n as [|n IH]; intros st; cbn [refresh_loop].
  - apply pres_ret; assumption.
  - apply (pres_bind R R_trans); [apply pres_refresh_tick | intros; apply IH].
Qed.

Lemma pres_displayPartBaseImage image : Preserves R (displayPartBaseImage image).
Proof.
  assert (H26 : cmd_ok 0x26 = true).
  { apply (forallb_in _ _ _ Hcmd). apply in_or_app. right. cbn. tauto. }
  unfold displayPartBaseImage.
  apply (pres_bind R R_trans).
  { apply (pres_send_command R cmd_ok); auto. apply (forallb_in _ _ _ Hdisp); cbn; tauto. }
  intros _. apply (pres_bind R R_trans); [apply (pres_send_frame R); assumption | intros _].
  apply (pres_bind R R_trans); [apply (pres_send_command R cmd_ok); auto | intros _].
  apply (pres_bind R R_trans); [apply (pres_send_frame R); assumption | intros _].
  apply (pres_turn_on_display R cmd_ok); auto.
  cbn in Hdisp |- *. rewrite !andb_true_iff in *. tauto.
Qed.

Lemma pres_MAPIO_CTRL_init : Preserves R MAPIO_CTRL_init.
Proof.
  unfold MAPIO_CTRL_init.
  apply (pres_bind R R_trans); [apply (pres_init R cmd_ok rst_ok); assumption | intros _].
  apply (pres_bind R R_trans); [apply pres_sleep_ms; assumption | intros _].
  apply (pres_bind R R_trans); [apply pres_get_current_buffered_image | intros b].
  apply (pres_bind R R_trans); [apply pres_displayPartBaseImage | intros _].
  apply (pres_for_each R R_refl R_trans). intros led. apply pres_modify; auto.
Qed.
End App_preservation.

(** *** Instances: the attributes of [mapio_ctrl] are unchanged *)

Ltac app_same_tac := intros; unfold app_same in *; cbn; intuition congruence.

Lemma init_app_same : Preserves app_same init.
Proof. apply (pres_init app_same (fun _ => true) (fun _ => true)); try app_same_tac; reflexivity. Qed.

Lemma display_app_same image : Preserves app_same (display image).
Proof. apply (pres_display app_same (fun _ => true)); try app_same_tac; reflexivity. Qed.


(** *** Instances: the log only grows, by events [bad] rejects *)

Section Quiet.
Variable bad : Ev -> bool.
Hypothesis bad_data : forall v, bad (Xfer 1 v) = false.
Hypothesis bad_sysfs : forall p v, bad (Sysfs p v) = false.

Lemma quiet_refl s : quiet bad s s.
Proof. exists []. split; reflexivity. Qed.

Lemma quiet_trans s1 s2 s3 : quiet bad s1 s2 -> quiet bad s2 s3 -> quiet bad s1 s3.
Proof.
  intros [e1 [H1 B1]] [e2 [H2 B2]]. exists (e2 ++ e1). split.
  - rewrite H2, H1. apply app_assoc.
  - rewrite existsb_app, B1, B2. reflexivity.
Qed.

Lemma quiet_same_trace s s' : trace s' = trace s -> quiet bad s s'.
Proof. intros H. exists []. split; [exact H | reflexivity]. Qed.

Lemma quiet_data s v : quiet bad s (log_xfer v (set_dc_level 1 s)).
Proof. exists [Xfer 1 v]. split; [reflexivity | cbn; rewrite bad_data; reflexivity]. Qed.

Lemma quiet_cmd s c : negb (bad (Xfer 0 c)) = true -> quiet bad s (log_xfer c (set_dc_level 0 s)).
Proof.
  intros H. exists [Xfer 0 c]. split; [reflexivity|].
  cbn. apply negb_true_iff in H. rewrite H. reflexivity.
Qed.

Lemma quiet_rst s v : negb (bad (Rst v)) = true -> quiet bad s (log_ev (Rst v) s).
Proof.
  intros H. exists [Rst v]. split; [reflexivity|].
  cbn. apply negb_true_iff in H. rewrite H. reflexivity.
Qed.

Lemma quiet_sysfs s p v : quiet bad s (log_ev (Sysfs p v) s).
Proof. exists [Sysfs p v]. split; [reflexivity | cbn; rewrite bad_sysfs; reflexivity]. Qed.

Lemma quiet_shell s c : bad (Shell c) = false -> quiet bad s (log_ev (Shell c) s).
Proof. intros H. exists [Shell c]. split; [reflexivity | cbn; rewrite H; reflexivity]. Qed.
End Quiet.

Ltac quiet_tac :=
  first
  [ apply quiet_refl | apply quiet_trans | apply quiet_data; reflexivity
  | apply quiet_cmd | apply quiet_rst | apply quiet_sysfs; reflexivity
  | intros; apply quiet_same_trace; reflexivity
  | intros; apply quiet_data; reflexivity
  | intros; apply quiet_cmd; assumption
  | intros; apply quiet_rst; assumption
  | intros; apply quiet_sysfs; reflexivity
  | intros; eapply quiet_trans; eassumption
  | intros; apply quiet_refl ].

Lemma display_quiet bad image :
  (forall v, bad (Xfer 1 v) = false) ->
  forallb (fun c => negb (bad (Xfer 0 c))) [0x24; 0x22; 0x20] = true ->
  Preserves (quiet bad) (display image).
Proof.
  intros Hd Hc. apply (pres_display (quiet bad) (fun c => negb (bad (Xfer 0 c))));
    try exact Hc; intros; [apply quiet_refl | eapply quiet_trans; eassumption
    | apply quiet_same_trace; reflexivity | apply quiet_same_trace; reflexivity
    | apply quiet_data; exact Hd | apply quiet_cmd; assumption].
Qed.

Lemma display_partial_quiet bad image :
  (forall v, bad (Xfer 1 v) = false) ->
  forallb (fun c => negb (bad (Xfer 0 c)))
    [0x32; 0x3F; 0x03; 0x04; 0x2C; 0x37; 0x3C; 0x22; 0x20; 0x44; 0x45; 0x4E; 0x4F; 0x24] = true ->
  forallb (fun v => negb (bad (Rst v))) [0; 1] = true ->
  Preserves (quiet bad) (display_partial image).
Proof.
  intros Hd Hc Hr.
  apply (pres_display_partial (quiet bad) (fun c => negb (bad (Xfer 0 c))) (fun v => negb (bad (Rst v))));
    try exact Hc; try exact Hr; intros; [apply quiet_refl | eapply quiet_trans; eassumption
    | apply quiet_same_trace; reflexivity | apply quiet_same_trace; reflexivity
    | apply quiet_data; exact Hd | apply quiet_cmd; assumption | apply quiet_rst; assumption].
Qed.

Lemma refresh_tick_quiet bad st :
  (forall v, bad (Xfer 1 v) = false) ->
  (forall p v, bad (Sysfs p v) = false) ->
  (forall c, bad (Shell c) = false) ->
  forallb (fun c => negb (bad (Xfer 0 c))) (init_cmds ++ [0x24; 0x22; 0x20; 0x26]) = true ->
  forallb (fun v => negb (bad (Rst v))) [0; 1] = true ->
  Preserves (quiet bad) (refresh_tick st).
Proof.
  intros Hd Hs Hsh Hc Hr.
  apply (pres_refresh_tick (quiet bad) (fun c => negb (bad (Xfer 0 c))) (fun v => negb (bad (Rst v))));
    try exact Hc; try exact Hr; intros;
    [apply quiet_refl | eapply quiet_trans; eassumption
    | apply quiet_same_trace; reflexivity | apply quiet_same_trace; reflexivity
    | apply quiet_data; exact Hd | apply quiet_cmd; assumption | apply quiet_rst; assumption
    | apply quiet_sysfs; exact Hs
    | apply quiet_same_trace; reflexivity | apply quiet_same_trace; reflexivity
    | apply quiet_same_trace; reflexivity | apply quiet_same_trace; reflexivity
    | apply quiet_shell; apply Hsh].
Qed.

Lemma commands_quiet c0 evs : existsb (is_cmd c0) evs = false -> ~ In c0 (commands evs).
Proof.
  induction evs as [|x evs IH]; cbn; [tauto|].
  intros H. apply orb_false_iff in H as [Hx Hr].
  destruct x as [dc c| | | |]; cbn; try (apply IH; exact Hr).
  cbn in Hx. destruct (dc =? 0); cbn in *; [|apply IH; exact Hr].
  intros [Hc|Hin]; [subst; rewrite Z.eqb_refl in Hx; discriminate | exact (IH Hr Hin)].
Qed.

Lemma controller_mode_quiet evs t :
  existsb mode_event evs = false -> controller_mode (evs ++ t) = controller_mode t.
Proof.
  induction evs as [|x evs IH]; cbn; [reflexivity|].
  intros H. apply orb_false_iff in H as [Hx Hr]. unfold mode_event in Hx.
  destruct (mode_of_event x); [discriminate | apply IH, Hr].
Qed.

(** *** Postconditions of normal returns *)

Lemma ensures_bind_r P {A B} (m : M A) (k : A -> M B) :
  (forall a, Ensures P (k a)) -> Ensures P (bind m k).
Proof.
  intros Hk f e s s' b H. unfold bind in H.
  destruct (m f e s) as [s1 [a|x|]]; try discriminate. eapply Hk; eauto.
Qed.

Lemma ensures_bind_pres P R {A B} (m : M A) (k : A -> M B) :
  Ensures P m -> (forall a, Preserves R (k a)) ->
  (forall e s s', P e s -> R s s' -> P e s') -> Ensures P (bind m k).
Proof.
  intros Hm Hk Hs f e s s' b H. unfold bind in H.
  destruct (m f e s) as [s1 [a|x|]] eqn:E; try discriminate.
  apply (Hs e s1). { eapply Hm; eauto. }
  specialize (Hk a f e s1). rewrite H in Hk. exact Hk.
Qed.

Lemma wait_busy_loop_low n : Ensures busy_low (wait_busy_loop n).
Proof.
  induction n as [|n IH]; intros f e s s' a H; cbn [wait_busy_loop] in H;
    destruct (busy_level e (clock s) =? 1) eqn:B.
  - discriminate.
  - inversion H; subst. exact B.
  - unfold bind, sleep_ms, modify in H. eapply IH; exact H.
  - inversion H; subst. exact B.
Qed.

Lemma wait_busy_low : Ensures busy_low wait_busy.
Proof. intros f e s s' a H. eapply wait_busy_loop_low; exact H. Qed.

Ltac qside :=
  first
  [ apply quiet_refl
  | intros; eapply quiet_trans; eassumption
  | intros; apply quiet_same_trace; reflexivity
  | intros; apply quiet_data; intros; reflexivity
  | intros; apply quiet_cmd; assumption
  | intros; apply quiet_rst; assumption
  | reflexivity ].

Ltac qstep :=
  match goal with
  | |- Preserves _ (bind _ _) => apply (pres_bind _ (quiet_trans _)); [ | intros ? ]
  | |- Preserves _ (for_each _ _) => apply (pres_for_each _); [qside | qside | intros ?]
  | |- Preserves _ (send_command _) => apply (pres_send_command _ mode_cmd_ok); qside
  | |- Preserves _ (send_data _) => apply (pres_send_data _); qside
  | |- Preserves _ (py_index _ _) => apply (pres_py_index _); qside
  | |- Preserves _ wait_busy => apply (pres_wait_busy _); qside
  | |- Preserves _ (set_window _ _ _ _) => apply (pres_set_window _ mode_cmd_ok); qside
  | |- Preserves _ (SetCursor _ _) => apply (pres_SetCursor _ mode_cmd_ok); qside
  | |- Preserves _ (send_frame _) => apply (pres_send_frame _); qside
  | |- Preserves _ turn_on_display_part => apply (pres_turn_on_display_part _ mode_cmd_ok); qside
  | |- Preserves _ (sleep_ms _) => apply (pres_sleep_ms _); qside
  end.

Lemma mode_idle_quiet e s s' : mode_idle e s -> quiet mode_event s s' -> mode_idle e s'.
Proof.
  unfold mode_idle. intros H [evs [Ht Hq]]. rewrite Ht, controller_mode_quiet; assumption.
Qed.

Lemma set_lut_idle lut : Ensures mode_idle (set_lut lut).
Proof.
  unfold set_lut. apply (ensures_bind_pres _ (quiet mode_event)).
  - unfold Lut. apply (ensures_bind_pres _ (quiet mode_event)).
    + intros f e s s' a H.
      unfold send_command, bind, dc_set_value, modify, spi_transfer in H. cbn in H.
      destruct (spi_ok e (nxfer s)); inversion H; subst. reflexivity.
    + intros _. repeat qstep.
    + apply mode_idle_quiet.
  - intros _. repeat qstep.
  - apply mode_idle_quiet.
Qed.

Lemma display_partial_idle image : Ensures mode_idle (display_partial image).
Proof.
  unfold display_partial.
  do 3 (apply ensures_bind_r; intros _).
  apply (ensures_bind_pres _ (quiet mode_event)).
  - apply set_lut_idle.
  - intros _. repeat qstep.
  - apply mode_idle_quiet.
Qed.

Lemma display_partial_busy_low image : Ensures busy_low (display_partial image).
Proof.
  unfold display_partial. repeat (apply ensures_bind_r; intros _).
  unfold turn_on_display_part. repeat (apply ensures_bind_r; intros _).
  apply wait_busy_low.
Qed.

Lemma display_busy_low image : Ensures busy_low (display image).
Proof.
  unfold display. do 2 (apply ensures_bind_r; intros _).
  apply (ensures_bind_pres _ (fun s s' => s' = s)).
  - unfold turn_on_display. repeat (apply ensures_bind_r; intros _). apply wait_busy_low.
  - intros _ f e s. reflexivity.
  - intros e s s' H ->. exact H.
Qed.

Lemma display_mode_quiet image : Preserves (quiet mode_event) (display image).
Proof. apply display_quiet; [intros; reflexivity | reflexivity]. Qed.

Lemma quiet_mode_no_sleep evs : existsb mode_event evs = false -> ~ In 0x10 (commands evs).
Proof.
  intros H. apply commands_quiet. induction evs as [|x evs IH]; cbn in *; [reflexivity|].
  apply orb_false_iff in H as [Hx Hr]. rewrite (IH Hr), orb_false_r.
  destruct x as [dc c| | | |]; cbn in *; try reflexivity.
  unfold mode_event in Hx. cbn in Hx.
  destruct (dc =? 0); cbn in *; [|reflexivity].
  destruct (c =? 16) eqn:E; [discriminate | reflexivity].
Qed.

Lemma refresh_tick_no_sleep st f e s :
  exists evs, trace (fst (refresh_tick st f e s)) = evs ++ trace s /\ ~ In 0x10 (commands evs).
Proof.
  destruct (refresh_tick_quiet (is_cmd 0x10) st (fun _ => eq_refl) (fun _ _ => eq_refl) (fun _ => eq_refl)
              eq_refl eq_refl f e s) as [evs [H1 H2]].
  exists evs. split; [exact H1 | apply commands_quiet, H2].
Qed.

(** *** A busy line that never clears *)

Lemma set_clock_id s : set_clock (clock s) s = s.
Proof. destruct s; reflexivity. Qed.

Lemma set_clock_twice a b s : set_clock a (set_clock b s) = set_clock a s.
Proof. reflexivity. Qed.

Lemma never_ok_bind_r e {A B} (m : M A) (k : A -> M B) :
  (forall a, never_ok e (k a)) -> never_ok e (bind m k).
Proof.
  intros Hk f s b. unfold bind. destruct (m f e s) as [s1 [a|x|]]; cbn; try discriminate.
  apply Hk.
Qed.

Lemma never_ok_bind_l e {A B} (m : M A) (k : A -> M B) :
  never_ok e m -> never_ok e (bind m k).
Proof.
  intros Hm f s b. unfold bind. specialize (Hm f s).
  destruct (m f e s) as [s1 [a|x|]]; cbn in *; try discriminate.
  exfalso. exact (Hm a eq_refl).
Qed.

Section Stuck.
Variable e : Env.
Hypothesis Hstuck : busy_level e = fun _ => 1.

Lemma wait_busy_loop_stuck n f s :
  wait_busy_loop n f e s = (set_clock (clock s + 10 * Z.of_nat n) s, Waiting).
Proof.
  revert s. induction n as [|n IH]; intros s; cbn [wait_busy_loop]; rewrite Hstuck; cbn.
  - rewrite Z.add_0_r, set_clock_id. reflexivity.
  - unfold bind, sleep_ms, modify. rewrite IH. cbn [clock set_clock].
    rewrite set_clock_twice. f_equal. f_equal. lia.
Qed.

Lemma wait_busy_never_ok : never_ok e wait_busy.
Proof.
  intros f s a. unfold wait_busy. rewrite wait_busy_loop_stuck. discriminate.
Qed.

Lemma turn_on_display_never_ok : never_ok e turn_on_display.
Proof.
  unfold turn_on_display. do 3 (apply never_ok_bind_r; intros _).
  apply wait_busy_never_ok.
Qed.

Lemma display_never_ok image : never_ok e (display image).
Proof.
  unfold display. do 2 (apply never_ok_bind_r; intros _).
  apply never_ok_bind_l, turn_on_display_never_ok.
Qed.

Lemma init_never_ok : never_ok e init.
Proof.
  unfold init. apply never_ok_bind_r; intros _.
  apply never_ok_bind_l, wait_busy_never_ok.
Qed.
End Stuck.

(** * C1 *)

(** C1 (amended): [EPD.wait_busy] has no timeout.  While the BUSY line stays
    high it polls every 10 ms without end: after [n] polls it is still
    waiting, the clock advanced by [10 n] ms, for every [n].  Hence neither
    a full refresh ([display]) nor [init] ever returns normally on such a
    panel, and no busy-timeout error exists. *)
Theorem C1_wait_busy_unbounded (e : Env) (Hstuck : busy_level e = fun _ => 1) :
  (forall n f s, wait_busy_loop n f e s = (set_clock (clock s + 10 * Z.of_nat n) s, Waiting)) /\
  (forall image f s a, snd (display image f e s) <> Ok a) /\
  (forall f s a, snd (init f e s) <> Ok a).
Proof.
  split; [|split].
  - intros n f s. apply wait_busy_loop_stuck; exact Hstuck.
  - intros image. apply display_never_ok; exact Hstuck.
  - apply init_never_ok; exact Hstuck.
Qed.

Lemma C1_witness :
  busy_level env_stuck = (fun _ => 1) /\
  wait_busy_loop 650 0%nat env_stuck s_fresh = (set_clock 6500 s_fresh, Waiting) /\
  snd (display white_buf 700%nat env_stuck s_fresh) <> Ok PyNone.
Proof.
  split; [reflexivity|].
  destruct (C1_wait_busy_unbounded env_stuck eq_refl) as [H1 [H2 _]].
  split; [exact (H1 650%nat 0%nat s_fresh) | exact (H2 white_buf 700%nat s_fresh PyNone)].
Defined.

(** C1 refuted: a full refresh of a valid frame on a panel whose BUSY line
    never clears has returned nothing after 10 s (1000 polls): it is still
    waiting, with no error. *)
Lemma C1_counterexample :
  snd (display white_buf 1000%nat env_stuck s_fresh) = Waiting /\
  clock (fst (display white_buf 1000%nat env_stuck s_fresh)) = 10000.
Proof. vm_compute. split; reflexivity. Qed.

Ltac qside24 :=
  repeat intro; cbn; first
  [ apply quiet_refl | eapply quiet_trans; eassumption
  | apply quiet_same_trace; reflexivity
  | apply quiet_data; intros; reflexivity
  | apply quiet_cmd; assumption | apply quiet_rst; assumption
  | apply quiet_sysfs; intros; reflexivity
  | apply quiet_shell; reflexivity | reflexivity ].

(** * C6 *)

Lemma refresh_screen_task_no_sleep n f e s :
  exists evs, trace (fst (refresh_screen_task n f e s)) = evs ++ trace s /\ ~ In 0x10 (commands evs).
Proof.
  assert (Q : Preserves (quiet (is_cmd 0x10)) (refresh_screen_task n)).
  { unfold refresh_screen_task. apply (pres_bind _ (quiet_trans _)); [qside24 | intros now].
    apply (pres_refresh_loop (quiet (is_cmd 0x10)) (fun c => negb (is_cmd 0x10 (Xfer 0 c)))
             (fun v => negb (is_cmd 0x10 (Rst v)))); qside24. }
  destruct (Q f e s) as [evs [H1 H2]]. exists evs. split; [exact H1 | apply commands_quiet, H2].
Qed.

Lemma MAPIO_CTRL_init_no_sleep f e s :
  exists evs, trace (fst (MAPIO_CTRL_init f e s)) = evs ++ trace s /\ ~ In 0x10 (commands evs).
Proof.
  assert (Q : Preserves (quiet (is_cmd 0x10)) MAPIO_CTRL_init).
  { apply (pres_MAPIO_CTRL_init (quiet (is_cmd 0x10)) (fun c => negb (is_cmd 0x10 (Xfer 0 c)))
             (fun v => negb (is_cmd 0x10 (Rst v)))); qside24. }
  destruct (Q f e s) as [evs [H1 H2]]. exists evs. split; [exact H1 | apply commands_quiet, H2].
Qed.

(** C6 (amended): [EPD.display], the full refresh, never commands deep
    sleep: the bytes it sends contain no command 0x10, and when it returns
    normally from a configured panel (controller Idle) the panel is Idle,
    not Sleeping.  The partial refresh [display_partial] sends no 0x10
    either and, when it returns normally, leaves the panel Idle.  Each
    conjunct stands on its own.  Neither the constructor [MAPIO_CTRL.__init__]
    (past [init]) nor any run of [refresh_screen_task], tick by tick or
    for any number of ticks, sends 0x10. *)
Theorem C6_full_refresh_ends_idle :
  (forall image f e s s1 v,
     controller_mode (trace s) = Idle -> display image f e s = (s1, Ok v) ->
     panel_state e s1 = Idle) /\
  (forall image f e s, exists evs,
     trace (fst (display image f e s)) = evs ++ trace s /\ ~ In 0x10 (commands evs)) /\
  (forall image f e s s2,
     display_partial image f e s = (s2, Ok tt) -> panel_state e s2 = Idle) /\
  (forall image f e s, exists evs,
     trace (fst (display_partial image f e s)) = evs ++ trace s /\ ~ In 0x10 (commands evs)) /\
  (forall st f e s, exists evs,
     trace (fst (refresh_tick st f e s)) = evs ++ trace s /\ ~ In 0x10 (commands evs)) /\
  (forall n f e s, exists evs,
     trace (fst (refresh_screen_task n f e s)) = evs ++ trace s /\ ~ In 0x10 (commands evs)) /\
  (forall f e s, exists evs,
     trace (fst (MAPIO_CTRL_init f e s)) = evs ++ trace s /\ ~ In 0x10 (commands evs)).
Proof.
  split; [|split; [|split; [|split; [|split; [|split]]]]].
  - intros image f e s s1 v Hidle Hd.
    assert (Qd := display_mode_quiet image f e s). rewrite Hd in Qd. cbn in Qd.
    unfold panel_state.
    assert (Hm : mode_idle e s1) by (eapply mode_idle_quiet; eassumption).
    unfold mode_idle in Hm. rewrite Hm.
    assert (Hb := display_busy_low image f e s s1 v Hd). unfold busy_low in Hb.
    rewrite Hb. reflexivity.
  - intros image f e s.
    destruct (display_mode_quiet image f e s) as [evs [Ht Hq]].
    exists evs. split; [exact Ht | apply quiet_mode_no_sleep, Hq].
  - intros image f e s s2 Hp. unfold panel_state.
    assert (Hm := display_partial_idle image f e s s2 tt Hp). unfold mode_idle in Hm.
    rewrite Hm.
    assert (Hb := display_partial_busy_low image f e s s2 tt Hp). unfold busy_low in Hb.
    rewrite Hb. reflexivity.
  - intros image f e s.
    destruct (display_partial_quiet (is_cmd 0x10) image (fun _ => eq_refl) eq_refl eq_refl f e s)
      as [evs [Ht Hq]].
    exists evs. split; [exact Ht | apply commands_quiet, Hq].
  - intros st. apply refresh_tick_no_sleep.
  - apply refresh_screen_task_no_sleep.
  - apply MAPIO_CTRL_init_no_sleep.
Qed.

Lemma C6_witness :
  panel_state env_ok (fst (display white_buf 100%nat env_ok s_after_init)) = Idle /\
  panel_state env_ok (fst (display_partial white_buf 100%nat env_ok s_after_init)) = Idle.
Proof.
  destruct C6_full_refresh_ends_idle as [H1 [_ [H3 _]]].
  split.
  - apply (H1 white_buf 100%nat env_ok s_after_init _ PyNone).
    + vm_compute. reflexivity.
    + vm_compute. reflexivity.
  - apply (H3 white_buf 100%nat env_ok s_after_init).
    vm_compute. reflexivity.
Defined.

(** C6 refuted: [init] then a full refresh of a valid frame returns
    normally and leaves the panel Idle; no deep-sleep command was sent. *)
Lemma C6_counterexample :
  snd ((init ;; display white_buf) 100%nat env_ok s_fresh) = Ok PyNone /\
  panel_state env_ok (fst ((init ;; display white_buf) 100%nat env_ok s_fresh)) = Idle /\
  existsb (Z.eqb 0x10) (commands (trace (fst ((init ;; display white_buf) 100%nat env_ok s_fresh)))) = false.
Proof. vm_compute. split; [|split]; reflexivity. Qed.

(** * C7 *)

(** C7: with a working bus and a panel that clears BUSY, [init] succeeds
    from every state and leaves the panel Idle; called a second time it
    again succeeds and leaves the panel Idle.  Each call sends the same
    sequence, reset pulse included, and leaves the attributes of
    [mapio_ctrl] alone. *)
Theorem C7_init_idempotent e f s
  (Hb : busy_level e = fun _ => 0) (Hs : spi_ok e = fun _ => true) :
  snd (init f e s) = Ok tt /\ panel_state e (fst (init f e s)) = Idle /\
  snd (init f e (fst (init f e s))) = Ok tt /\
  panel_state e (fst (init f e (fst (init f e s)))) = Idle /\
  trace (fst (init f e s)) = init_events ++ trace s /\
  trace (fst (init f e (fst (init f e s)))) = init_events ++ trace (fst (init f e s)) /\
  app_same s (fst (init f e s)) /\
  app_same (fst (init f e s)) (fst (init f e (fst (init f e s)))).
Proof.
  destruct e; cbn in Hb, Hs; subst. destruct f; vm_compute; repeat split; reflexivity.
Qed.

Lemma C7_witness :
  snd (init 5%nat env_ok s_fresh) = Ok tt /\
  panel_state env_ok (fst (init 5%nat env_ok (fst (init 5%nat env_ok s_fresh)))) = Idle.
Proof.
  destruct (C7_init_idempotent env_ok 5%nat s_fresh eq_refl eq_refl)
    as [H1 [_ [_ [H4 _]]]].
  split; [exact H1 | exact H4].
Defined.

(** * C2 *)

Lemma refresh_tick_raise st f e s s' x :
  refresh_tick st f e s = (s', Raise x) -> refresh_cycle st f e s = (s', Raise x).
Proof.
  unfold refresh_tick, bind, gets, sleep_ms, modify, ret.
  destruct (refresh_due st s); [|discriminate].
  destruct (refresh_cycle st f e s) as [s1 [a|y|]]; congruence.
Qed.

(** C2 (amended): [refresh_screen_task] catches nothing.  An exception
    raised in a tick (a bus [OSError], the [NameError] of an unknown
    view, the [TypeError] of [blink]) ends the task's loop with that same
    exception and the state the tick reached: no later tick runs, so the
    failed refresh is never retried.  This holds from the first tick of
    the task on. *)
Theorem C2_refresh_errors_propagate st f e s n s' x :
  refresh_tick st f e s = (s', Raise x) ->
  refresh_loop (S n) st f e s = (s', Raise x) /\
  (st = {| next_refresh_time := py_round_ms (clock s); prev_hash := HInt 0 |} ->
   refresh_screen_task (S n) f e s = (s', Raise x)).
Proof.
  intros H. assert (Hl : refresh_loop (S n) st f e s = (s', Raise x)).
  { cbn [refresh_loop]. unfold bind at 1. rewrite H. reflexivity. }
  split; [exact Hl|].
  intros ->. unfold refresh_screen_task, bind at 1, time_now, gets. exact Hl.
Qed.

Lemma C2_witness :
  refresh_screen_task 3 100%nat env_ok s_dirty
    = (fst (refresh_tick st0 100%nat env_ok s_dirty), Raise TypeError).
Proof.
  destruct (C2_refresh_errors_propagate st0 100%nat env_ok s_dirty 2%nat
              (fst (refresh_tick st0 100%nat env_ok s_dirty)) TypeError) as [_ H2].
  - vm_compute. reflexivity.
  - apply H2. vm_compute. reflexivity.
Defined.

(** C2 refuted: with [need_refresh] set, a bus failure during [init]
    propagates out of [refresh_screen_task], which ends; the flag stays set
    but no tick is left to retry. *)
Lemma C2_counterexample :
  snd (refresh_screen_task 3 100%nat env_spi_fail s_dirty) = Raise OSError /\
  need_refresh (fst (refresh_screen_task 3 100%nat env_spi_fail s_dirty)) = true.
Proof. vm_compute. split; reflexivity. Qed.

(** * C3 *)

(** C3 (code bug): on an image of the wrong size [getbuffer] returns the
    Python list [[0x00] * (int(122/8) * 250)]: 3750 zero bytes, all ink
    (0 = black), where a blank frame is 0xFF bytes and has [frame_length]
    = 4000 bytes.  A list is not hashable by [hashlib] ([TypeError]), and
    [display] runs past its end ([IndexError]); in the refresh task such a
    view aborts the tick with [TypeError]. *)
Theorem C3_getbuffer_mismatch img :
  (im_width img =? EPD_WIDTH) && (im_height img =? EPD_HEIGHT) = false ->
  (im_width img =? EPD_HEIGHT) && (im_height img =? EPD_WIDTH) = false ->
  getbuffer img = PyList (repeat 0x00 3750) /\
  Forall (fun b => b = 0x00) (buf_bytes (getbuffer img)) /\
  Z.of_nat (List.length (buf_bytes (getbuffer img))) = 3750 /\ frame_length = 4000 /\
  (forall f e s, snd (sha256_of (getbuffer img) f e s) = Raise TypeError) /\
  (forall f e s, spi_ok e = (fun _ => true) ->
     snd (display (getbuffer img) f e s) = Raise IndexError) /\
  snd (refresh_tick st0 100%nat env_small s_dirty) = Raise TypeError.
Proof.
  intros H1 H2.
  assert (Hg : getbuffer img = PyList (repeat 0x00 3750)).
  { unfold getbuffer. rewrite H1, H2. reflexivity. }
  rewrite Hg. split; [reflexivity|]. split.
  { cbn [buf_bytes]. apply Forall_forall. intros b Hb. apply repeat_spec in Hb. exact Hb. }
  split; [reflexivity|]. split; [reflexivity|]. split; [reflexivity|]. split.
  - intros f e s Hs. destruct e; cbn in Hs; subst. vm_compute. reflexivity.
  - vm_compute. reflexivity.
Qed.

Lemma C3_witness :
  getbuffer small_image = PyList (repeat 0x00 3750) /\
  snd (display (getbuffer small_image) 10%nat env_small s_fresh) = Raise IndexError.
Proof.
  destruct (C3_getbuffer_mismatch small_image eq_refl eq_refl)
    as [H1 [_ [_ [_ [_ [H6 _]]]]]].
  split; [exact H1 | apply H6; reflexivity].
Defined.

(** * C4 *)

(** C4 (code bug): the first cycle of [refresh_screen_task] sees a new
    hash and calls [led_sys_green.blink(True)], which raises [TypeError]
    before [display] runs: no frame is ever sent (no command 0x24) and the
    task ends, so there is no second cycle.  The equal-hash branch itself
    behaves as described: from a stored hash equal to the new one, a cycle
    sends no frame, clears [need_refresh] and sets [is_busy] to [False]. *)
Theorem C4_first_refresh_raises :
  snd (refresh_screen_task 2 100%nat env_ok s_dirty) = Raise TypeError /\
  existsb (Z.eqb 0x24) (commands (trace (fst (refresh_screen_task 2 100%nat env_ok s_dirty)))) = false /\
  snd (refresh_cycle {| next_refresh_time := 0; prev_hash := HStr "blank" |} 100%nat env_ok s_dirty)
    = Ok {| next_refresh_time := 0; prev_hash := HStr "blank" |} /\
  existsb (Z.eqb 0x24)
    (commands (trace (fst (refresh_cycle {| next_refresh_time := 0; prev_hash := HStr "blank" |}
                             100%nat env_ok s_dirty)))) = false /\
  need_refresh (fst (refresh_cycle {| next_refresh_time := 0; prev_hash := HStr "blank" |}
                       100%nat env_ok s_dirty)) = false.
Proof. vm_compute. repeat split; reflexivity. Qed.

(** * C5 *)







(** * C8 *)






(** * C9 *)

Lemma MAPIO_CTRL_init_busy_same :
  Preserves (fun s s' => is_busy s' = is_busy s) MAPIO_CTRL_init.
Proof.
  apply (pres_MAPIO_CTRL_init (fun s s' => is_busy s' = is_busy s) (fun _ => true) (fun _ => true));
    intros; cbn; first [congruence | reflexivity].
Qed.

Lemma refresh_cycle_is_busy st f e s s' o :
  refresh_cycle st f e s = (s', o) ->
  is_busy s' = is_busy s \/ is_busy s' = Some true \/
  (is_busy s' = Some false /\
   exists l, getbuffer (render e (current_view s')) = PyBytearray l /\
             hash_ne (HStr (sha256_hex e l)) (prev_hash st) = false).
Proof.
  intros H. unfold refresh_cycle in H. unfold bind at 1 in H.
  assert (Ha := init_app_same f e s).
  destruct (init f e s) as [s1 o1]. cbn in Ha. destruct Ha as (_ & _ & _ & _ & Hb).
  destruct o1 as [[]|y|]; [| inversion H; subst; left; exact Hb | inversion H; subst; left; exact Hb].
  unfold get_current_buffered_image, generate_setup_view, enable_access_point in H.
  unfold bind, views_pool_head, gets, modify, asks, sha256_of, LED_blink, raise, ret, time_now in H.
  cbn -[display hash_ne getbuffer] in H.
  repeat (first [ match goal with
                  | Hq : String.eqb _ _ = true |- _ => apply String.eqb_eq in Hq; subst
                  end
                | inversion H; subst;
                  first [ right; left; reflexivity
                        | right; right; split; [reflexivity | eexists; split; eassumption] ]
                | match type of H with
                  | context [if ?c then _ else _] => destruct c eqn:?
                  | context [match ?c with PyBytearray _ => _ | PyList _ => _ end] => destruct c eqn:?
                  | context [match ?c with [] => _ | _ :: _ => _ end] => destruct c eqn:?
                  end ]; cbn -[display hash_ne getbuffer] in H).
Qed.

Lemma generate_setup_view_busy f e s :
  exists s', generate_setup_view f e s = (s', Ok (render e "SETUP")) /\ is_busy s' = is_busy s.
Proof.
  unfold generate_setup_view, enable_access_point.
  unfold bind, gets, asks, modify, ret, time_now. cbn.
  repeat match goal with
         | |- context [if ?c then _ else _] => destruct c
         end; eexists; split; reflexivity.
Qed.

Lemma refresh_cycle_new_hash st f e s v p l :
  snd (init f e s) = Ok tt ->
  views_pool s = v :: p -> known_view v = true ->
  getbuffer (render e v) = PyBytearray l ->
  hash_ne (HStr (sha256_hex e l)) (prev_hash st) = true ->
  exists s', refresh_cycle st f e s = (s', Raise TypeError) /\ is_busy s' = Some true.
Proof.
  intros Hi Hv Hk Hg Hh. unfold refresh_cycle. unfold bind at 1.
  assert (Ha := init_app_same f e s).
  destruct (init f e s) as [s1 o1]. cbn in Hi, Ha. subst o1.
  destruct Ha as (_ & _ & Hp & _ & _). rewrite Hv in Hp.
  unfold get_current_buffered_image.
  unfold bind, views_pool_head, gets, modify, asks, sha256_of, LED_blink, raise, ret, time_now.
  cbn -[display hash_ne getbuffer existsb]. rewrite Hp.
  cbn -[display hash_ne getbuffer existsb].
  unfold known_view in Hk. rewrite Hk. cbn -[display hash_ne getbuffer existsb generate_setup_view].
  destruct (String.eqb v "SETUP") eqn:Es.
  - apply String.eqb_eq in Es. subst v.
    match goal with
    | |- context [generate_setup_view f e ?x] =>
        destruct (generate_setup_view_busy f e x) as (s3 & -> & Hb3)
    end.
    cbn -[display hash_ne getbuffer existsb]. rewrite Hg.
    cbn -[display hash_ne getbuffer existsb]. rewrite Hh.
    eexists; split; [reflexivity | exact Hb3].
  - cbn -[display hash_ne getbuffer existsb].
    rewrite Hg. cbn -[display hash_ne getbuffer existsb].
    rewrite Hh. eexists; split; reflexivity.
Qed.

Lemma busy_blocks_leds f e s :
  is_busy s = Some true ->
  (exists evs, trace (fst (refresh_leds_iteration f e s)) = evs ++ trace s /\
               existsb led1_event evs = false) /\
  is_busy (fst (refresh_leds_iteration f e s)) = Some true.
Proof.
  intros Hb. unfold refresh_leds_iteration, read_is_busy, bind, gets, asks, time_now, ret.
  unfold read_battery_state, raise. rewrite Hb. cbn.
  repeat match goal with
         | |- context [battery_state e (clock s) ?k] =>
             destruct (battery_state e (clock s) k) as [[]|]; cbn
         end;
    (split; [ first [ exists []; split; reflexivity
                    | eexists (_ :: _ :: []); split; reflexivity
                    | eexists (_ :: _ :: _ :: _ :: []); split; reflexivity ]
            | exact Hb ]).
Qed.

Lemma busy_blocks_buttons last l f e s :
  is_busy s = Some true -> fst (handle_event last l f e s) = s.
Proof.
  intros Hb. unfold handle_event, time_now, read_is_busy, bind, gets, ret. cbn beta iota.
  destruct (clock s - last >? 3000); [|reflexivity]. rewrite Hb. reflexivity.
Qed.

Lemma unset_is_busy last l f e s :
  is_busy s = None ->
  snd (refresh_leds_iteration f e s) = Raise AttributeError /\
  (3000 < clock s - last -> snd (handle_event last l f e s) = Raise AttributeError).
Proof.
  intros Hb. split.
  - unfold refresh_leds_iteration, read_is_busy, bind, gets. rewrite Hb. reflexivity.
  - intros H. unfold handle_event, time_now, read_is_busy, bind, gets.
    replace (clock s - last >? 3000) with true by (symmetry; rewrite Z.gtb_ltb; apply Z.ltb_lt; lia).
    rewrite Hb. reflexivity.
Qed.

(** C9: [refresh_screen_task] assigns [epd.is_busy] [True] once [init]
    has completed and [False] only in the branch where the new hash equals
    the stored one; on a new hash the cycle ends with the flag [True].
    While it is [True] a button event changes nothing and the LED task
    writes no LED1 (docker status) file, leaving the flag as it is.
    [is_busy] is not assigned by [EPD.__init__] nor by
    [MAPIO_CTRL.__init__]: reading it before the first cycle raises
    [AttributeError] in the LED task and in an accepted button event. *)
Theorem C9_is_busy_protocol :
  (forall st f e s s' o, refresh_cycle st f e s = (s', o) ->
     is_busy s' = is_busy s \/ is_busy s' = Some true \/
     (is_busy s' = Some false /\
      exists l, getbuffer (render e (current_view s')) = PyBytearray l /\
                hash_ne (HStr (sha256_hex e l)) (prev_hash st) = false)) /\
  (forall st f e s v p l,
     snd (init f e s) = Ok tt -> views_pool s = v :: p -> known_view v = true ->
     getbuffer (render e v) = PyBytearray l ->
     hash_ne (HStr (sha256_hex e l)) (prev_hash st) = true ->
     exists s', refresh_cycle st f e s = (s', Raise TypeError) /\ is_busy s' = Some true) /\
  (forall last l f e s, is_busy s = Some true ->
     fst (handle_event last l f e s) = s /\
     (exists evs, trace (fst (refresh_leds_iteration f e s)) = evs ++ trace s /\
                  existsb led1_event evs = false) /\
     is_busy (fst (refresh_leds_iteration f e s)) = Some true) /\
  (forall custom t f e,
     is_busy (mapio_ctrl_fresh custom t) = None /\
     is_busy (fst (MAPIO_CTRL_init f e (mapio_ctrl_fresh custom t))) = None) /\
  (forall last l f e s, is_busy s = None ->
     snd (refresh_leds_iteration f e s) = Raise AttributeError /\
     (3000 < clock s - last -> snd (handle_event last l f e s) = Raise AttributeError)).
Proof.
  split; [|split; [|split; [|split]]].
  - apply refresh_cycle_is_busy.
  - apply refresh_cycle_new_hash.
  - intros last l f e s Hb. split; [apply busy_blocks_buttons; exact Hb|].
    apply busy_blocks_leds; exact Hb.
  - intros custom t f e. split; [reflexivity|].
    pose proof (MAPIO_CTRL_init_busy_same f e (mapio_ctrl_fresh custom t)) as H.
    cbv beta in H. rewrite H. reflexivity.
  - apply unset_is_busy.
Qed.

Lemma C9_witness :
  is_busy (fst (MAPIO_CTRL_init 10%nat env_ok s_fresh)) = None /\
  snd (refresh_leds_iteration 10%nat env_ok (fst (MAPIO_CTRL_init 10%nat env_ok s_fresh)))
    = Raise AttributeError /\
  fst (handle_event 0 up_line 10%nat env_ok (s_at true 5000)) = s_at true 5000.
Proof.
  destruct C9_is_busy_protocol as [_ [_ [H3 [H4 H5]]]].
  destruct (H4 false 0 10%nat env_ok) as [_ Hn].
  split; [exact Hn|]. split.
  - apply (H5 0 up_line 10%nat env_ok _ Hn).
  - apply (H3 0 up_line 10%nat env_ok (s_at true 5000) eq_refl).
Defined.

(** * C10 *)

Lemma LED_blink_arg_raises led b f e s : LED_blink led [b] f e s = (s, Raise TypeError).
Proof. reflexivity. Qed.

Lemma mid_long_press_ok l n f e s : exists s' b, mid_long_press l n f e s = (s', Ok b).
Proof.
  revert s. induction n as [|n IH]; intros s; cbn [mid_long_press].
  - eexists _, _. reflexivity.
  - unfold bind at 1, time_now, gets. cbn beta iota.
    destruct (line_value l (clock s) =? 0).
    + unfold bind, sleep_ms, modify. cbn beta iota. apply IH.
    + eexists _, _. reflexivity.
Qed.

Lemma handle_event_idle_raises last l f e s :
  3000 < clock s - last -> is_busy s = Some false ->
  In (consumer l) ["UP"; "DOWN"; "MID"]%string ->
  snd (handle_event last l f e s) = Raise TypeError.
Proof.
  intros H1 Hb Hc. unfold handle_event, time_now, read_is_busy, gets. unfold bind at 1. cbn beta iota.
  replace (clock s - last >? 3000) with true by (symmetry; rewrite Z.gtb_ltb; apply Z.ltb_lt; lia).
  unfold bind at 1. cbn beta iota. unfold bind at 1. cbn beta iota. rewrite Hb. cbn beta iota.
  destruct Hc as [Hc|[Hc|[Hc|[]]]]; rewrite <- Hc; cbn -[mid_long_press].
  - reflexivity.
  - reflexivity.
  - unfold bind at 1 2. destruct (mid_long_press_ok l 30 f e s) as (s1 & b & E). rewrite E.
    destruct b; reflexivity.
Qed.

Lemma handle_event_busy_ok last l f e s :
  3000 < clock s - last -> is_busy s = Some true ->
  handle_event last l f e s = (s, Ok (clock s)).
Proof.
  intros H1 Hb. unfold handle_event, time_now, read_is_busy, gets, bind, ret. cbn beta iota.
  replace (clock s - last >? 3000) with true by (symmetry; rewrite Z.gtb_ltb; apply Z.ltb_lt; lia).
  rewrite Hb. reflexivity.
Qed.

Lemma leds_idle_raises f e s :
  is_busy s = Some false -> snd (refresh_leds_iteration f e s) = Raise TypeError.
Proof.
  intros Hb. unfold refresh_leds_iteration, read_is_busy, time_now, gets, asks, bind, ret.
  cbn beta iota. rewrite Hb. cbn. destruct (docker_active e (clock s)); reflexivity.
Qed.

(** C10 (amended): [LED.blink] takes no argument besides [self], so every
    call [blink(b)] raises [TypeError] and changes nothing.  A refresh
    cycle that sees a new hash raises it, leaving [is_busy] [True]; an
    accepted UP, DOWN or MID event raises it when [is_busy] is [False];
    so does an LED-task iteration when [is_busy] is [False].  An accepted
    event while [is_busy] is [True] calls no [blink] and raises nothing. *)
Theorem C10_blink_arity :
  (forall led b f e s, LED_blink led [b] f e s = (s, Raise TypeError)) /\
  (forall st f e s v p l,
     snd (init f e s) = Ok tt -> views_pool s = v :: p -> known_view v = true ->
     getbuffer (render e v) = PyBytearray l ->
     hash_ne (HStr (sha256_hex e l)) (prev_hash st) = true ->
     exists s', refresh_cycle st f e s = (s', Raise TypeError) /\ is_busy s' = Some true) /\
  (forall last l f e s,
     3000 < clock s - last -> is_busy s = Some false ->
     In (consumer l) ["UP"; "DOWN"; "MID"]%string ->
     snd (handle_event last l f e s) = Raise TypeError) /\
  (forall last l f e s,
     3000 < clock s - last -> is_busy s = Some true ->
     handle_event last l f e s = (s, Ok (clock s))) /\
  (forall f e s, is_busy s = Some false -> snd (refresh_leds_iteration f e s) = Raise TypeError).
Proof.
  split; [|split; [|split; [|split]]].
  - apply LED_blink_arg_raises.
  - apply refresh_cycle_new_hash.
  - apply handle_event_idle_raises.
  - apply handle_event_busy_ok.
  - apply leds_idle_raises.
Qed.

Lemma C10_witness :
  snd (handle_event 0 up_line 10%nat env_ok (s_at false 5000)) = Raise TypeError /\
  snd (refresh_leds_iteration 10%nat env_ok (s_at false 5000)) = Raise TypeError.
Proof.
  destruct C10_blink_arity as [_ [_ [H3 [_ H5]]]].
  split.
  - apply H3; [vm_compute; reflexivity | reflexivity | cbn; tauto].
  - apply H5. reflexivity.
Defined.

(** C10 refuted: the first refresh cycle of a fresh process raises
    [TypeError] with [is_busy] left [True]; the first button event after
    it is accepted (more than 3 s after the handler's start) and raises
    nothing. *)
Lemma C10_counterexample :
  snd (refresh_screen_task 130 100%nat env_ok s_fresh) = Raise TypeError /\
  is_busy s_after_task = Some true /\
  handle_event 0 up_line 100%nat env_ok s_after_task = (s_after_task, Ok (clock s_after_task)) /\
  3000 < clock s_after_task - 0.
Proof. vm_compute. repeat split; reflexivity. Qed.

(** * Further properties of the driver and the tasks *)

Lemma bind_ext {A B} (m : M A) (k1 k2 : A -> M B) f e s :
  (forall a f e s, k1 a f e s = k2 a f e s) -> bind m k1 f e s = bind m k2 f e s.
Proof. intros H. unfold bind. destruct (m f e s) as [s1 [a|x|]]; auto. Qed.

Lemma bind_assoc {A B C} (m : M A) (k : A -> M B) (k' : B -> M C) f e s :
  bind (bind m k) k' f e s = bind m (fun a => bind (k a) k') f e s.
Proof. unfold bind. destruct (m f e s) as [s1 [a|x|]]; reflexivity. Qed.

Lemma for_each_ext {A} (xs : list A) (b1 b2 : A -> M unit) f e s :
  (forall x, In x xs -> forall f e s, b1 x f e s = b2 x f e s) ->
  for_each xs b1 f e s = for_each xs b2 f e s.
Proof.
  revert s. induction xs as [|x xs IH]; intros s H; cbn [for_each]; [reflexivity|].
  unfold bind. rewrite (H x (or_introl eq_refl)).
  destruct (b2 x f e s) as [s1 [[]|y|]]; auto.
  apply IH. intros; apply H; right; assumption.
Qed.

Lemma for_each_app {A} (xs ys : list A) (b : A -> M unit) f e s :
  for_each (xs ++ ys) b f e s = (for_each xs b ;; for_each ys b) f e s.
Proof.
  revert s. induction xs as [|x xs IH]; intros s; cbn [for_each app].
  - reflexivity.
  - rewrite bind_assoc. unfold bind at 1 2. destruct (b x f e s) as [s1 [[]|y|]]; auto.
Qed.

Lemma for_each_flat_map {A B} (g : A -> list B) (js : list A) (b : B -> M unit) f e s :
  for_each (flat_map g js) b f e s = for_each js (fun j => for_each (g j) b) f e s.
Proof.
  revert f e s. induction js as [|j js IH]; intros f e s; cbn [flat_map for_each]; [reflexivity|].
  rewrite for_each_app. apply bind_ext. intros [] f' e' s'. apply IH.
Qed.

Lemma map_seq_shift {B} (g : nat -> B) a c :
  map g (seq a c) = map (fun k => g (a + k)%nat) (seq 0 c).
Proof.
  revert g. induction a as [|a IH]; intros g.
  - apply map_ext. reflexivity.
  - rewrite <- seq_shift, map_map, IH. apply map_ext. intros k. f_equal.
Qed.

Lemma range_app lo m hi : lo <= m <= hi -> range lo hi = range lo m ++ range m hi.
Proof.
  intros H. unfold range.
  replace (Z.to_nat (hi - lo)) with (Z.to_nat (m - lo) + Z.to_nat (hi - m))%nat by lia.
  rewrite seq_app, map_app. f_equal. rewrite map_seq_shift. apply map_ext. intros k. lia.
Qed.

Lemma range_cons lo hi : lo < hi -> range lo hi = lo :: range (lo + 1) hi.
Proof.
  intros H. unfold range.
  replace (Z.to_nat (hi - lo)) with (S (Z.to_nat (hi - (lo + 1)))) by lia.
  cbn [seq map]. f_equal; [lia|]. rewrite <- seq_shift, map_map. apply map_ext. intros k. lia.
Qed.

Lemma in_range k lo hi : In k (range lo hi) <-> lo <= k < hi.
Proof.
  unfold range. rewrite in_map_iff. split.
  - intros [j [<- Hj]]. apply in_seq in Hj. lia.
  - intros H. exists (Z.to_nat (k - lo)). split; [lia|]. apply in_seq. lia.
Qed.

Lemma length_range lo hi : List.length (range lo hi) = Z.to_nat (hi - lo).
Proof. unfold range. rewrite length_map, length_seq. reflexivity. Qed.

Lemma skipn_nth_cons (l : list Z) m d :
  (m < List.length l)%nat -> skipn m l = nth m l d :: skipn (S m) l.
Proof.
  revert m. induction l as [|x l IH]; intros m Hm; cbn in Hm; [lia|].
  destruct m as [|m]; [reflexivity|]. cbn. apply IH. lia.
Qed.

Lemma map_nth_seq (l : list Z) m n :
  (m + n <= List.length l)%nat -> map (fun k => nth k l 0) (seq m n) = firstn n (skipn m l).
Proof.
  revert m. induction n as [|n IH]; intros m H; [reflexivity|].
  cbn [seq map]. rewrite (skipn_nth_cons l m 0) by lia. cbn [firstn]. f_equal. apply IH. lia.
Qed.

Lemma map_nth_range (l : list Z) n :
  (n <= List.length l)%nat ->
  map (fun k => nth (Z.to_nat k) l 0) (range 0 (Z.of_nat n)) = firstn n l.
Proof.
  intros H. unfold range. rewrite map_map.
  replace (Z.to_nat (Z.of_nat n - 0)) with n by lia.
  rewrite <- (skipn_O l) at 1. rewrite <- (map_nth_seq l 0 n) by lia.
  apply map_ext. intros k. f_equal. lia.
Qed.

Lemma send_data_ok v f e s :
  spi_ok e (nxfer s) = true -> send_data v f e s = (send_data_st v s, Ok tt).
Proof. intros H. unfold send_data, dc_set_value, spi_transfer, modify, bind. cbn. rewrite H. reflexivity. Qed.

Lemma send_command_ok c f e s :
  spi_ok e (nxfer s) = true -> send_command c f e s = (log_xfer c (set_dc_level 0 s), Ok tt).
Proof. intros H. unfold send_command, dc_set_value, spi_transfer, modify, bind. cbn. rewrite H. reflexivity. Qed.

Lemma py_index_in (l : list Z) i f e s :
  0 <= i < Z.of_nat (List.length l) -> py_index l i f e s = (s, Ok (nth (Z.to_nat i) l 0)).
Proof.
  intros H. unfold py_index. destruct (Z.ltb_spec i 0); [lia|].
  rewrite (nth_error_nth' l 0) by lia. reflexivity.
Qed.

Lemma py_index_out (l : list Z) i f e s :
  Z.of_nat (List.length l) <= i -> py_index l i f e s = (s, Raise IndexError).
Proof.
  intros H. unfold py_index. destruct (Z.ltb_spec i 0); [reflexivity|].
  rewrite (proj2 (nth_error_None l (Z.to_nat i))) by lia. reflexivity.
Qed.

Section Sending.
Variable e : Env.
Hypothesis Hspi : forall n, spi_ok e n = true.

Lemma send_indexed_ok (l : list Z) idx f s :
  (forall i, In i idx -> 0 <= i < Z.of_nat (List.length l)) ->
  for_each idx (fun i => v <- py_index l i ;; send_data v) f e s =
  (send_bytes_st (map (fun i => nth (Z.to_nat i) l 0) idx) s, Ok tt).
Proof.
  revert s. induction idx as [|i idx IH]; intros s H; [reflexivity|].
  cbn [for_each map]. unfold bind at 1. unfold bind at 1.
  rewrite py_index_in by (apply H; left; reflexivity).
  rewrite send_data_ok by apply Hspi.
  apply IH. intros j Hj; apply H; right; exact Hj.
Qed.

Lemma send_indexed_short (l : list Z) pre i post f s :
  (forall j, In j pre -> 0 <= j < Z.of_nat (List.length l)) ->
  Z.of_nat (List.length l) <= i ->
  for_each (pre ++ i :: post) (fun i => v <- py_index l i ;; send_data v) f e s =
  (send_bytes_st (map (fun i => nth (Z.to_nat i) l 0) pre) s, Raise IndexError).
Proof.
  intros Hpre Hi. rewrite for_each_app. unfold bind at 1.
  rewrite send_indexed_ok by exact Hpre.
  cbn [for_each]. unfold bind at 1. unfold bind at 1. rewrite py_index_out by exact Hi. reflexivity.
Qed.
End Sending.

Lemma frame_loops_flat (B : Z -> M unit) f e s :
  for_each (range 0 EPD_HEIGHT) (fun j =>
    for_each (range 0 linewidth) (fun i => B (i + j * linewidth))) f e s =
  for_each (range 0 (linewidth * EPD_HEIGHT)) B f e s.
Proof.
  assert (E : range 0 (linewidth * EPD_HEIGHT) =
              flat_map (fun j => map (fun i => i + j * linewidth) (range 0 linewidth)) (range 0 EPD_HEIGHT))
    by (vm_compute; reflexivity).
  rewrite E, for_each_flat_map. apply for_each_ext. intros j _ f' e' s'.
  clear. generalize (range 0 linewidth). intros xs. revert f' e' s'.
  induction xs as [|x xs IH]; intros f' e' s'; [reflexivity|]. cbn [map for_each].
  apply bind_ext. intros [] f'' e'' s''. apply IH.
Qed.

Lemma send_frame_flat image f e s :
  send_frame image f e s =
  for_each (range 0 (linewidth * EPD_HEIGHT)) (fun k => v <- py_index (buf_bytes image) k ;; send_data v) f e s.
Proof. unfold send_frame. apply (frame_loops_flat (fun k => v <- py_index (buf_bytes image) k ;; send_data v)). Qed.

Lemma trace_send_bytes vs s : trace (send_bytes_st vs s) = rev (map (Xfer 1) vs) ++ trace s.
Proof.
  revert s. induction vs as [|v vs IH]; intros s; [reflexivity|].
  cbn [send_bytes_st fold_left map rev]. unfold send_bytes_st in IH. rewrite IH.
  cbn. rewrite <- app_assoc. reflexivity.
Qed.

Lemma send_bytes_fields vs s :
  clock (send_bytes_st vs s) = clock s /\ nxfer (send_bytes_st vs s) = Nat.add (nxfer s) (List.length vs) /\
  app_same s (send_bytes_st vs s).
Proof.
  revert s. induction vs as [|v vs IH]; intros s.
  - cbn. split; [reflexivity|]. split; [lia|]. unfold app_same; tauto.
  - cbn [send_bytes_st fold_left List.length]. unfold send_bytes_st in IH.
    destruct (IH (send_data_st v s)) as (H1 & H2 & H3). rewrite H1, H2. cbn. split; [reflexivity|].
    split; [lia|]. unfold app_same in *. cbn in H3. exact H3.
Qed.

(** X1 *)
(** The frame loop of [display]: with working SPI it sends the bytes
    [image[0]] .. [image[3999]] in order; a shorter buffer sends all its
    bytes and then raises [IndexError]. *)
Theorem send_frame_bytes e f s b :
  (forall n, spi_ok e n = true) ->
  send_frame b f e s =
  if (4000 <=? List.length (buf_bytes b))%nat
  then (send_bytes_st (firstn 4000 (buf_bytes b)) s, Ok tt)
  else (send_bytes_st (buf_bytes b) s, Raise IndexError).
Proof.
  intros Hspi. rewrite send_frame_flat. change (linewidth * EPD_HEIGHT) with 4000.
  set (l := buf_bytes b).
  destruct (Nat.leb_spec 4000 (List.length l)) as [Hl|Hl].
  - rewrite send_indexed_ok by (exact Hspi || (intros i Hi; apply in_range in Hi; lia)).
    change 4000 with (Z.of_nat 4000). rewrite map_nth_range by exact Hl. reflexivity.
  - rewrite (range_app 0 (Z.of_nat (List.length l)) 4000) by lia.
    rewrite (range_cons (Z.of_nat (List.length l)) 4000) by lia.
    rewrite send_indexed_short by (exact Hspi || lia || (intros i Hi; apply in_range in Hi; lia)).
    rewrite map_nth_range by lia. rewrite firstn_all. reflexivity.
Qed.

Lemma wait_busy_low_now e f s : busy_level e (clock s) <> 1 -> wait_busy f e s = (s, Ok tt).
Proof. intros H. unfold wait_busy. destruct f; cbn; rewrite (proj2 (Z.eqb_neq _ _) H); reflexivity. Qed.

Lemma turn_on_display_ok e f s :
  (forall n, spi_ok e n = true) -> busy_level e (clock s) <> 1 ->
  turn_on_display f e s = (turn_on_st s, Ok tt).
Proof.
  intros Hspi Hb. unfold turn_on_display. unfold bind at 1.
  rewrite send_command_ok by apply Hspi. unfold bind at 1. rewrite send_data_ok by apply Hspi.
  unfold bind at 1. rewrite send_command_ok by apply Hspi. apply wait_busy_low_now. exact Hb.
Qed.

Lemma turn_on_st_fields x :
  trace (turn_on_st x) = [Xfer 0 0x20; Xfer 1 0xC7; Xfer 0 0x22] ++ trace x /\
  clock (turn_on_st x) = clock x /\ app_same x (turn_on_st x).
Proof. cbn. unfold app_same. cbn. repeat split. Qed.

Lemma app_same_trans s1 s2 s3 : app_same s1 s2 -> app_same s2 s3 -> app_same s1 s3.
Proof. unfold app_same. intros (?&?&?&?&?) (?&?&?&?&?). repeat split; congruence. Qed.

Lemma log_cmd_fields c s :
  trace (log_xfer c (set_dc_level 0 s)) = Xfer 0 c :: trace s /\
  clock (log_xfer c (set_dc_level 0 s)) = clock s /\ app_same s (log_xfer c (set_dc_level 0 s)).
Proof. cbn. unfold app_same. cbn. repeat split. Qed.

(** [display] of a buffer of at least 4000 bytes, BUSY low and working SPI:
    command 0x24, the first 4000 bytes, then the update sequence 0x22,
    0xC7, 0x20; it returns [None] without touching the app attributes or
    the clock. *)
Theorem display_full_frame e f s b :
  (forall n, spi_ok e n = true) -> busy_level e (clock s) <> 1 ->
  (4000 <= List.length (buf_bytes b))%nat ->
  exists s', display b f e s = (s', Ok PyNone) /\
    trace s' = [Xfer 0 0x20; Xfer 1 0xC7; Xfer 0 0x22] ++
               rev (map (Xfer 1) (firstn 4000 (buf_bytes b))) ++ Xfer 0 0x24 :: trace s /\
    clock s' = clock s /\ app_same s s'.
Proof.
  intros Hspi Hb Hl. unfold display. unfold bind at 1.
  rewrite send_command_ok by apply Hspi. unfold bind at 1.
  rewrite send_frame_bytes by exact Hspi. rewrite (proj2 (Nat.leb_le _ _) Hl).
  destruct (log_cmd_fields 0x24 s) as (Ht0 & Hc0 & Ha0).
  destruct (send_bytes_fields (firstn 4000 (buf_bytes b)) (log_xfer 0x24 (set_dc_level 0 s))) as (Hc & _ & Ha).
  unfold bind at 1. rewrite turn_on_display_ok; [ | exact Hspi | rewrite Hc, Hc0; exact Hb].
  exists (turn_on_st (send_bytes_st (firstn 4000 (buf_bytes b)) (log_xfer 0x24 (set_dc_level 0 s)))).
  split; [reflexivity|].
  destruct (turn_on_st_fields (send_bytes_st (firstn 4000 (buf_bytes b)) (log_xfer 0x24 (set_dc_level 0 s)))) as (Ht2 & Hc2 & Ha2).
  rewrite Ht2, trace_send_bytes, Ht0, Hc2, Hc, Hc0. split; [reflexivity|]. split; [reflexivity|].
  eapply app_same_trans; [eapply app_same_trans; [exact Ha0 | exact Ha] | exact Ha2].
Qed.

(** [clear c] sends exactly what [display] sends for a frame of 4000
    copies of [c], in every environment. *)
Theorem clear_is_display_of_constant c f e s :
  (clear c ;; ret PyNone) f e s = display (PyBytearray (repeat c 4000)) f e s.
Proof.
  unfold clear, display. rewrite !bind_assoc. apply bind_ext. intros [] f1 e1 s1.
  rewrite bind_assoc. unfold bind at 1 3.
  rewrite (frame_loops_flat (fun _ => send_data c)), send_frame_flat.
  change (linewidth * EPD_HEIGHT) with 4000.
  rewrite (for_each_ext (range 0 4000) (fun _ => send_data c)
             (fun k => v <- py_index (buf_bytes (PyBytearray (repeat c 4000))) k ;; send_data v)).
  - reflexivity.
  - intros k Hk f2 e2 s2. apply in_range in Hk. unfold bind. cbn [buf_bytes].
    rewrite py_index_in by (rewrite repeat_length; lia).
    rewrite nth_repeat_lt by lia. reflexivity.
Qed.

(** [displayPartBaseImage] writes the same 4000 bytes to both RAMs (0x24
    then 0x26) and runs the full update sequence. *)
Theorem displayPartBaseImage_both_rams e f s b :
  (forall n, spi_ok e n = true) -> busy_level e (clock s) <> 1 ->
  (4000 <= List.length (buf_bytes b))%nat ->
  exists s', displayPartBaseImage b f e s = (s', Ok tt) /\
    trace s' = [Xfer 0 0x20; Xfer 1 0xC7; Xfer 0 0x22] ++
               rev (map (Xfer 1) (firstn 4000 (buf_bytes b))) ++ Xfer 0 0x26 ::
               rev (map (Xfer 1) (firstn 4000 (buf_bytes b))) ++ Xfer 0 0x24 :: trace s /\
    clock s' = clock s /\ app_same s s'.
Proof.
  intros Hspi Hb Hl. unfold displayPartBaseImage. unfold bind at 1.
  rewrite send_command_ok by apply Hspi. unfold bind at 1.
  rewrite send_frame_bytes by exact Hspi. rewrite (proj2 (Nat.leb_le _ _) Hl).
  unfold bind at 1. rewrite send_command_ok by apply Hspi. unfold bind at 1.
  rewrite send_frame_bytes by exact Hspi. rewrite (proj2 (Nat.leb_le _ _) Hl).
  set (fr := firstn 4000 (buf_bytes b)). clearbody fr.
  destruct (log_cmd_fields 0x24 s) as (Ht0 & Hc0 & Ha0).
  destruct (send_bytes_fields fr (log_xfer 0x24 (set_dc_level 0 s))) as (Hc1 & _ & Ha1).
  destruct (log_cmd_fields 0x26 (send_bytes_st fr (log_xfer 0x24 (set_dc_level 0 s)))) as (Ht2 & Hc2 & Ha2).
  destruct (send_bytes_fields fr (log_xfer 0x26 (set_dc_level 0 (send_bytes_st fr (log_xfer 0x24 (set_dc_level 0 s))))))
    as (Hc3 & _ & Ha3).
  rewrite turn_on_display_ok; [ | exact Hspi | rewrite Hc3, Hc2, Hc1, Hc0; exact Hb].
  eexists. split; [reflexivity|].
  match goal with |- context [turn_on_st ?x] => destruct (turn_on_st_fields x) as (Ht4 & Hc4 & Ha4) end.
  rewrite Ht4, trace_send_bytes, Ht2, trace_send_bytes, Ht0, Hc4, Hc3, Hc2, Hc1, Hc0.
  split; [reflexivity|]. split; [reflexivity|].
  repeat (eapply app_same_trans; [eassumption|]). exact Ha4.
Qed.

Lemma pack_byte_bit img y bx k :
  0 <= k < 8 ->
  Z.testbit (pack_byte img y bx) (7 - k) =
  (8 * bx + k <? im_width img) && im_pixel img (8 * bx + k) y.
Proof.
  intros Hk. unfold pack_byte. change (range 0 8) with [0;1;2;3;4;5;6;7]. cbn [fold_left].
  assert (k = 0 \/ k = 1 \/ k = 2 \/ k = 3 \/ k = 4 \/ k = 5 \/ k = 6 \/ k = 7) as Hk' by lia.
  repeat (destruct Hk' as [-> | Hk']); try (subst k);
  repeat match goal with |- context [if ?c then _ else _] => destruct c end; reflexivity.
Qed.

Lemma pack_byte_range img y bx : 0 <= pack_byte img y bx <= 255.
Proof.
  unfold pack_byte. change (range 0 8) with [0;1;2;3;4;5;6;7]. cbn [fold_left].
  repeat match goal with |- context [if ?c then _ else _] => destruct c end; cbn; lia.
Qed.

Lemma length_flat_map_uniform {A B} (g : A -> list B) (l : list A) m :
  (forall x, In x l -> List.length (g x) = m) -> List.length (flat_map g l) = (List.length l * m)%nat.
Proof.
  induction l as [|x l IH]; intros H; [reflexivity|]. cbn [flat_map List.length].
  rewrite length_app, IH by (intros; apply H; right; assumption).
  rewrite H by (left; reflexivity). lia.
Qed.

Lemma nth_flat_map_uniform {A B} (g : A -> list B) (l : list A) m j i d da :
  (forall x, In x l -> List.length (g x) = m) -> (j < List.length l)%nat -> (i < m)%nat ->
  nth (j * m + i) (flat_map g l) d = nth i (g (nth j l da)) d.
Proof.
  revert j. induction l as [|x l IH]; intros j H Hj Hi; cbn in Hj; [lia|].
  cbn [flat_map]. destruct j as [|j].
  - cbn. rewrite app_nth1 by (rewrite H by (left; reflexivity); lia). reflexivity.
  - rewrite app_nth2 by (rewrite H by (left; reflexivity); nia).
    rewrite H by (left; reflexivity).
    replace (S j * m + i - m)%nat with (j * m + i)%nat by nia.
    cbn [nth]. apply IH; [intros; apply H; right; assumption | lia | lia].
Qed.

Lemma nth_range lo hi j d : (j < Z.to_nat (hi - lo))%nat -> nth j (range lo hi) d = lo + Z.of_nat j.
Proof.
  intros H. unfold range. set (g := fun k => lo + Z.of_nat k).
  rewrite (nth_indep _ d (g 0%nat)) by (rewrite length_map, length_seq; exact H).
  rewrite map_nth, seq_nth by exact H. reflexivity.
Qed.

Lemma tobytes_length img :
  0 <= im_width img -> 0 <= im_height img ->
  List.length (tobytes img) = (Z.to_nat (im_height img) * Z.to_nat ((im_width img + 7) / 8))%nat.
Proof.
  intros Hw Hh. unfold tobytes.
  rewrite (length_flat_map_uniform _ _ (Z.to_nat ((im_width img + 7) / 8))).
  - rewrite length_range. f_equal. lia.
  - intros y _. rewrite length_map, length_range. f_equal. lia.
Qed.

Lemma tobytes_nth img x y :
  0 <= x < im_width img -> 0 <= y < im_height img ->
  nth (Z.to_nat (y * ((im_width img + 7) / 8) + x / 8)) (tobytes img) 0 =
  pack_byte img y (x / 8).
Proof.
  intros Hx Hy.
  assert (Hm : x / 8 < (im_width img + 7) / 8) by (Z.to_euclidean_division_equations; lia).
  assert (Hx8 : 0 <= x / 8) by (Z.to_euclidean_division_equations; lia).
  set (m := (im_width img + 7) / 8) in *.
  assert (Hm0 : 0 <= m) by lia.
  rewrite Z2Nat.inj_add, Z2Nat.inj_mul by nia.
  unfold tobytes. fold m.
  rewrite (nth_flat_map_uniform _ _ (Z.to_nat m) _ _ 0 0).
  - rewrite nth_range by lia. rewrite nth_indep with (d' := pack_byte img (0 + Z.of_nat (Z.to_nat y)) 0)
      by (rewrite length_map, length_range; lia).
    rewrite map_nth, nth_range by lia. f_equal; lia.
  - intros y' _. rewrite length_map, length_range. f_equal. lia.
  - rewrite length_range. lia.
  - lia.
Qed.

Lemma tobytes_bytes img : Forall (fun v => 0 <= v <= 255) (tobytes img).
Proof.
  unfold tobytes. apply Forall_flat_map. apply Forall_forall. intros y _.
  apply Forall_map. apply Forall_forall. intros bx _. apply pack_byte_range.
Qed.

Lemma tobytes_pixel img x y :
  0 <= x < im_width img -> 0 <= y < im_height img ->
  Z.testbit (nth (Z.to_nat (y * ((im_width img + 7) / 8) + x / 8)) (tobytes img) 0) (7 - x mod 8) =
  im_pixel img x y.
Proof.
  intros Hx Hy. rewrite tobytes_nth by assumption.
  replace (7 - x mod 8) with (7 - (x mod 8)) by reflexivity.
  rewrite pack_byte_bit by (pose proof (Z.mod_pos_bound x 8); lia).
  rewrite <- (Z.div_mod x 8) by lia. rewrite (proj2 (Z.ltb_lt _ _)) by lia. reflexivity.
Qed.

(** [getbuffer] of a 122x250 image: 4000 bytes, 16 per row, the most
    significant bit first, a set bit for a white pixel. *)
Theorem getbuffer_portrait img :
  im_width img = EPD_WIDTH -> im_height img = EPD_HEIGHT ->
  exists l, getbuffer img = PyBytearray l /\ List.length l = 4000%nat /\
    Forall (fun v => 0 <= v <= 255) l /\
    forall x y, 0 <= x < EPD_WIDTH -> 0 <= y < EPD_HEIGHT ->
      Z.testbit (nth (Z.to_nat (y * 16 + x / 8)) l 0) (7 - x mod 8) = im_pixel img x y.
Proof.
  intros Hw Hh. exists (tobytes img). split.
  - unfold getbuffer. rewrite Hw, Hh. reflexivity.
  - split; [rewrite tobytes_length by (rewrite ?Hw, ?Hh; cbv; discriminate); rewrite Hw, Hh; reflexivity|].
    split; [apply tobytes_bytes|].
    intros x y Hx Hy. change 16 with ((EPD_WIDTH + 7) / 8). rewrite <- Hw.
    apply tobytes_pixel; rewrite ?Hw, ?Hh; assumption.
Qed.

(** [getbuffer] of a 250x122 image: the image turned a quarter turn
    counter-clockwise, packed as a portrait one. *)
Theorem getbuffer_landscape img :
  im_width img = EPD_HEIGHT -> im_height img = EPD_WIDTH ->
  exists l, getbuffer img = PyBytearray l /\ List.length l = 4000%nat /\
    Forall (fun v => 0 <= v <= 255) l /\
    forall x y, 0 <= x < EPD_WIDTH -> 0 <= y < EPD_HEIGHT ->
      Z.testbit (nth (Z.to_nat (y * 16 + x / 8)) l 0) (7 - x mod 8) = im_pixel img (EPD_HEIGHT - 1 - y) x.
Proof.
  intros Hw Hh. exists (tobytes (rotate90 img)). split.
  - unfold getbuffer. rewrite Hw, Hh. reflexivity.
  - split; [rewrite tobytes_length by (cbn; rewrite ?Hw, ?Hh; cbv; discriminate); cbn; rewrite Hw, Hh; reflexivity|].
    split; [apply tobytes_bytes|].
    intros x y Hx Hy. change 16 with ((EPD_WIDTH + 7) / 8).
    replace EPD_WIDTH with (im_width (rotate90 img)) at 1 by (cbn; exact Hh).
    rewrite tobytes_pixel by (cbn; rewrite ?Hw, ?Hh; assumption).
    cbn. rewrite Hw. reflexivity.
Qed.

Lemma getbuffer_portrait_witness :
  im_width white_image = EPD_WIDTH /\ im_height white_image = EPD_HEIGHT /\
  exists l, getbuffer white_image = PyBytearray l /\ List.length l = 4000%nat.
Proof.
  split; [reflexivity|]. split; [reflexivity|].
  destruct (getbuffer_portrait white_image eq_refl eq_refl) as (l & H1 & H2 & _).
  exists l. split; assumption.
Defined.

Lemma getbuffer_landscape_witness :
  im_width landscape_image = EPD_HEIGHT /\ im_height landscape_image = EPD_WIDTH /\
  exists l, getbuffer landscape_image = PyBytearray l /\ List.length l = 4000%nat.
Proof.
  split; [reflexivity|]. split; [reflexivity|].
  destruct (getbuffer_landscape landscape_image eq_refl eq_refl) as (l & H1 & H2 & _).
  exists l. split; assumption.
Defined.

Theorem mid_long_press_held l n f e s :
  (forall k, (k < n)%nat -> line_value l (clock s + 100 * Z.of_nat k) = 0) ->
  mid_long_press l n f e s = (set_clock (clock s + 100 * Z.of_nat n) s, Ok true).
Proof.
  revert s. induction n as [|n IH]; intros s H; cbn [mid_long_press].
  - rewrite Z.add_0_r, set_clock_id. reflexivity.
  - unfold bind at 1, time_now, gets. cbn beta iota.
    rewrite (proj2 (Z.eqb_eq _ _)) by (specialize (H 0%nat ltac:(lia)); rewrite Z.add_0_r in H; exact H).
    unfold bind, sleep_ms, modify. cbn beta iota. rewrite IH.
    + cbn [clock set_clock]. rewrite set_clock_twice. f_equal. f_equal. lia.
    + intros k Hk. cbn [clock set_clock]. rewrite <- Z.add_assoc.
      replace (100 + 100 * Z.of_nat k) with (100 * Z.of_nat (S k)) by lia. apply H. lia.
Qed.

Theorem mid_long_press_released l n m f e s :
  (m < n)%nat ->
  (forall k, (k < m)%nat -> line_value l (clock s + 100 * Z.of_nat k) = 0) ->
  line_value l (clock s + 100 * Z.of_nat m) <> 0 ->
  mid_long_press l n f e s = (set_clock (clock s + 100 * Z.of_nat m) s, Ok false).
Proof.
  revert s m. induction n as [|n IH]; intros s m Hm H Hr; [lia|]. cbn [mid_long_press].
  unfold bind at 1, time_now, gets. cbn beta iota.
  destruct m as [|m].
  - rewrite Z.add_0_r in Hr. rewrite (proj2 (Z.eqb_neq _ _) Hr). rewrite Z.add_0_r, set_clock_id. reflexivity.
  - rewrite (proj2 (Z.eqb_eq _ _)) by (specialize (H 0%nat ltac:(lia)); rewrite Z.add_0_r in H; exact H).
    unfold bind, sleep_ms, modify. cbn beta iota. rewrite (IH _ m).
    + cbn [clock set_clock]. rewrite set_clock_twice. f_equal. f_equal. lia.
    + lia.
    + intros k Hk. cbn [clock set_clock]. rewrite <- Z.add_assoc.
      replace (100 + 100 * Z.of_nat k) with (100 * Z.of_nat (S k)) by lia. apply H. lia.
    + cbn [clock set_clock]. rewrite <- Z.add_assoc.
      replace (100 + 100 * Z.of_nat m) with (100 * Z.of_nat (S m)) by lia. exact Hr.
Qed.

(** A MID press held for the 30 polls (3 s): LED1 green off, red on,
    [reboot], then [need_refresh] and [mid_press] set and [blink(True)]
    raises [TypeError]. *)
Theorem mid_hold_reboots last l f e s :
  consumer l = "MID"%string -> 3000 < clock s - last -> is_busy s = Some false ->
  (forall k, (k < 30)%nat -> line_value l (clock s + 100 * Z.of_nat k) = 0) ->
  exists s', handle_event last l f e s = (s', Raise TypeError) /\
    trace s' = Shell "reboot" :: Sysfs "/sys/class/leds/LED1_R/brightness" "1" ::
               Sysfs "/sys/class/leds/LED1_G/brightness" "0" :: trace s /\
    clock s' = clock s + 3000 /\ need_refresh s' = true /\ mid_press s' = true.
Proof.
  intros Hc H1 Hb Hl. unfold handle_event, time_now, read_is_busy, gets. unfold bind at 1. cbn beta iota.
  replace (clock s - last >? 3000) with true by (symmetry; rewrite Z.gtb_ltb; apply Z.ltb_lt; lia).
  unfold bind at 1. cbn beta iota. unfold bind at 1. cbn beta iota. rewrite Hb. cbn beta iota.
  rewrite Hc. cbn -[mid_long_press].
  unfold bind at 1 2. rewrite mid_long_press_held by exact Hl.
  eexists. split; [reflexivity|]. cbn. repeat split.
Qed.

(** A MID press released at poll [m < 30]: no reboot and no LED change;
    the handler sets [need_refresh] and [mid_press], then raises
    [TypeError] in [blink(True)]. *)
Theorem mid_short_press_no_reboot last l m f e s :
  consumer l = "MID"%string -> 3000 < clock s - last -> is_busy s = Some false ->
  (m < 30)%nat ->
  (forall k, (k < m)%nat -> line_value l (clock s + 100 * Z.of_nat k) = 0) ->
  line_value l (clock s + 100 * Z.of_nat m) <> 0 ->
  exists s', handle_event last l f e s = (s', Raise TypeError) /\
    trace s' = trace s /\ clock s' = clock s + 100 * Z.of_nat m /\
    need_refresh s' = true /\ mid_press s' = true.
Proof.
  intros Hc H1 Hb Hm Hl Hr. unfold handle_event, time_now, read_is_busy, gets. unfold bind at 1. cbn beta iota.
  replace (clock s - last >? 3000) with true by (symmetry; rewrite Z.gtb_ltb; apply Z.ltb_lt; lia).
  unfold bind at 1. cbn beta iota. unfold bind at 1. cbn beta iota. rewrite Hb. cbn beta iota.
  rewrite Hc. cbn -[mid_long_press].
  unfold bind at 1 2. rewrite (mid_long_press_released l 30 m) by assumption.
  eexists. split; [reflexivity|]. cbn. repeat split.
Qed.

Lemma mid_hold_reboots_witness :
  exists s', handle_event 0 mid_line_held 0%nat env_ok (s_at false 4000) = (s', Raise TypeError) /\
    trace s' = Shell "reboot" :: Sysfs "/sys/class/leds/LED1_R/brightness" "1" ::
               Sysfs "/sys/class/leds/LED1_G/brightness" "0" :: trace (s_at false 4000).
Proof.
  destruct (mid_hold_reboots 0 mid_line_held 0%nat env_ok (s_at false 4000) eq_refl
              ltac:(vm_compute; reflexivity) eq_refl (fun k _ => eq_refl)) as (s' & H1 & H2 & _).
  exists s'. split; assumption.
Defined.

Lemma mid_short_press_witness :
  exists s', handle_event 0 mid_line_tap 0%nat env_ok (s_at false 4000) = (s', Raise TypeError) /\
    trace s' = trace (s_at false 4000).
Proof.
  destruct (mid_short_press_no_reboot 0 mid_line_tap 5%nat 0%nat env_ok (s_at false 4000) eq_refl
              ltac:(vm_compute; reflexivity) eq_refl ltac:(lia)
              ltac:(intros k Hk; do 5 (destruct k as [|k]; [reflexivity|]); lia)
              ltac:(vm_compute; discriminate)) as (s' & H1 & H2 & _).
  exists s'. split; assumption.
Defined.

(** A refresh cycle for a view other than SETUP whose frame has the
    stored hash: after [init] it sends no frame, clears [need_refresh],
    sets the current view and clears [is_busy]; the stored hash is kept. *)
Theorem unchanged_frame_not_resent st f e s s1 v p l :
  init f e s = (s1, Ok tt) ->
  views_pool s = v :: p -> known_view v = true -> v <> "SETUP"%string ->
  getbuffer (render e v) = PyBytearray l ->
  prev_hash st = HStr (sha256_hex e l) ->
  refresh_cycle st f e s =
  (set_is_busy_st (Some false) (set_current_view_st v
     (set_need_refresh_st false (set_is_busy_st (Some true) s1))),
   Ok {| next_refresh_time := py_round_ms (clock s1); prev_hash := prev_hash st |}).
Proof.
  intros Hi Hv Hk Hs Hg Hh. unfold refresh_cycle. unfold bind at 1.
  assert (Ha := init_app_same f e s). unfold Preserves in Ha.
  rewrite Hi in *. cbn in Ha.
  destruct Ha as (_ & _ & Hp & _ & _). rewrite Hv in Hp.
  unfold get_current_buffered_image.
  unfold bind, views_pool_head, gets, modify, asks, sha256_of, LED_blink, raise, ret, time_now.
  cbn -[display hash_ne getbuffer existsb]. rewrite Hp.
  cbn -[display hash_ne getbuffer existsb].
  unfold known_view in Hk. rewrite Hk. cbn -[display hash_ne getbuffer existsb].
  apply String.eqb_neq in Hs. rewrite Hs. cbn -[display hash_ne getbuffer existsb].
  rewrite Hg. cbn -[display hash_ne getbuffer existsb].
  rewrite Hh. cbn [hash_ne]. rewrite String.eqb_refl. reflexivity.
Qed.

Lemma py_round_ms_bounds t : t - 500 <= 1000 * py_round_ms t <= t + 500.
Proof.
  unfold py_round_ms. pose proof (Z.div_mod t 1000 ltac:(lia)). pose proof (Z.mod_pos_bound t 1000 ltac:(lia)).
  destruct (Z.ltb_spec (t mod 1000) 500); [lia|].
  destruct (Z.ltb_spec 500 (t mod 1000)); [lia|].
  destruct (Z.even (t / 1000)); lia.
Qed.

(** With no refresh requested, the periodic refresh of [refresh_screen_task]
    never fires before 60 s after the rounded start time and always fires
    after 61 s. *)
Theorem periodic_refresh_spacing st s t0 :
  next_refresh_time st = py_round_ms t0 -> need_refresh s = false ->
  (refresh_due st s = true -> t0 + 60000 <= clock s) /\
  (t0 + 61000 < clock s -> refresh_due st s = true).
Proof.
  intros Hn Hr. unfold refresh_due, SCREEN_REFRESH_PERIOD_S. rewrite Hn, Hr, orb_false_r.
  pose proof (py_round_ms_bounds t0). pose proof (py_round_ms_bounds (clock s)).
  split.
  - intros Hd. apply Z.ltb_lt in Hd. lia.
  - intros Hc. apply Z.ltb_lt. lia.
Qed.

(** An iteration of [refresh_leds_task] while the panel is busy, when
    the three [get_battery_state()] calls of the [if]/[elif] chain all
    return the same state [b], drives only LED3, by [b], and sleeps 1 s. *)
Theorem leds_battery_indicator f e s b :
  is_busy s = Some true ->
  (forall k, (k < 3)%nat -> battery_state e (clock s) k = Some b) ->
  refresh_leds_iteration f e s =
  (set_clock (clock s + 1000)
     (fold_right log_ev s
        (match b with
         | powered =>
             [Sysfs "/sys/class/leds/LED3_G/brightness" "1";
              Sysfs "/sys/class/leds/LED3_R/brightness" "0"]
         | on_battery =>
             [Sysfs "/sys/class/leds/LED3_R/brightness" "1";
              Sysfs "/sys/class/leds/LED3_G/brightness" "1";
              Sysfs "/sys/class/leds/LED3_R/brightness" "0";
              Sysfs "/sys/class/leds/LED3_G/brightness" "0"]
         | critical =>
             [Sysfs "/sys/class/leds/LED3_G/brightness" "0";
              Sysfs "/sys/class/leds/LED3_R/brightness" "1"]
         end)%string), Ok tt).
Proof.
  intros Hb Hk.
  pose proof (Hk 0%nat ltac:(lia)) as H0.
  pose proof (Hk 1%nat ltac:(lia)) as H1.
  pose proof (Hk 2%nat ltac:(lia)) as H2.
  unfold refresh_leds_iteration, read_is_busy, read_battery_state, time_now.
  unfold bind, gets, asks, ret, raise. rewrite Hb. cbn beta iota.
  rewrite H0. destruct b; cbn; rewrite ?H1; cbn; rewrite ?H2; reflexivity.
Qed.

(** [refresh_leds_task] queries the battery up to three times per
    iteration.  When the readings change between the calls so that no
    branch of the chain matches (the first is not powered, the second not
    on battery, the third not critical), the iteration leaves LED3 as it
    was.  When a query's register output does not parse ([ValueError] of
    [int(.., 16)]), the exception ends the task. *)
Theorem leds_battery_mixed_readings f e s b0 b1 b2 :
  is_busy s = Some true ->
  (battery_state e (clock s) 0 = None ->
     refresh_leds_iteration f e s = (s, Raise ValueError)) /\
  (battery_state e (clock s) 0 = Some b0 -> b0 <> powered ->
   battery_state e (clock s) 1 = Some b1 -> b1 <> on_battery ->
   battery_state e (clock s) 2 = Some b2 -> b2 <> critical ->
     refresh_leds_iteration f e s = (set_clock (clock s + 1000) s, Ok tt)).
Proof.
  intros Hb.
  unfold refresh_leds_iteration, read_is_busy, read_battery_state, time_now.
  unfold bind, gets, asks, ret, raise. rewrite Hb. cbn beta iota.
  split.
  - intros H0. rewrite H0. reflexivity.
  - intros H0 N0 H1 N1 H2 N2. rewrite H0.
    destruct b0; [congruence | |]; cbn; rewrite H1;
      (destruct b1; [| congruence |]); cbn; rewrite H2;
      (destruct b2; [| | congruence]); reflexivity.
Qed.

(** [_generate_setup_view] after a MID press clears [mid_press].  With the
    webserver stopped it starts [mapio-webserver-back] and [nginx] and sets
    [need_refresh]; with the webserver running and the ping answered it
    stops the webserver, [nginx] and the access point, and leaves
    [need_refresh] as it was. *)
Theorem setup_view_mid_press f e s :
  current_view s = "SETUP"%string -> mid_press s = true ->
  (webserver_active e (clock s) = false ->
     fst (get_current_buffered_image f e s) =
     set_need_refresh_st true
       (log_ev (Shell "systemctl start nginx")
         (log_ev (Shell "systemctl start mapio-webserver-back")
           (set_mid_press_st false s))) /\
     exists b, snd (get_current_buffered_image f e s) = Ok b) /\
  (webserver_active e (clock s) = true -> ping_ok e (clock s) = true ->
     fst (get_current_buffered_image f e s) =
     log_ev (Shell "systemctl stop wpa_supplicant-ap")
       (log_ev (Shell "systemctl stop nginx")
         (log_ev (Shell "systemctl stop mapio-webserver-back")
           (set_mid_press_st false s))) /\
     exists b, snd (get_current_buffered_image f e s) = Ok b).
Proof.
  intros Hv Hm. unfold get_current_buffered_image, generate_setup_view.
  unfold bind, gets, asks, modify, ret, time_now. rewrite Hv. cbn -[enable_access_point].
  split.
  - intros Hw. rewrite Hw. cbn. rewrite Hm. cbn. split; [reflexivity | eexists; reflexivity].
  - intros Hw Hp. rewrite Hw, Hp. cbn. rewrite Hm. cbn. split; [reflexivity | eexists; reflexivity].
Qed.

Lemma leds_battery_indicator_witness :
  refresh_leds_iteration 0%nat env_ok (s_at true 0) =
  (set_clock 1000 (log_ev (Sysfs "/sys/class/leds/LED3_G/brightness" "1")
     (log_ev (Sysfs "/sys/class/leds/LED3_R/brightness" "0") (s_at true 0))), Ok tt).
Proof. exact (leds_battery_indicator 0%nat env_ok (s_at true 0) powered eq_refl (fun _ _ => eq_refl)). Defined.

Lemma leds_battery_mixed_readings_witness :
  refresh_leds_iteration 0%nat env_battery_flip (s_at true 0) = (set_clock 1000 (s_at true 0), Ok tt) /\
  refresh_leds_iteration 0%nat env_battery_err (s_at true 0) = (s_at true 0, Raise ValueError).
Proof.
  split.
  - destruct (leds_battery_mixed_readings 0%nat env_battery_flip (s_at true 0)
                on_battery critical powered eq_refl) as [_ H].
    apply H; (reflexivity || discriminate).
  - destruct (leds_battery_mixed_readings 0%nat env_battery_err (s_at true 0)
                powered powered powered eq_refl) as [H _].
    apply H. reflexivity.
Defined.

Lemma setup_view_mid_press_witness :
  fst (get_current_buffered_image 0%nat env_web_down s_setup_mid) =
  set_need_refresh_st true
    (log_ev (Shell "systemctl start nginx")
      (log_ev (Shell "systemctl start mapio-webserver-back")
        (set_mid_press_st false s_setup_mid))) /\
  fst (get_current_buffered_image 0%nat env_ok s_setup_mid) =
  log_ev (Shell "systemctl stop wpa_supplicant-ap")
    (log_ev (Shell "systemctl stop nginx")
      (log_ev (Shell "systemctl stop mapio-webserver-back")
        (set_mid_press_st false s_setup_mid))).
Proof.
  split.
  - destruct (setup_view_mid_press 0%nat env_web_down s_setup_mid eq_refl eq_refl) as [H _].
    apply H. reflexivity.
  - destruct (setup_view_mid_press 0%nat env_ok s_setup_mid eq_refl eq_refl) as [_ H].
    apply H; reflexivity.
Defined.

(** Off the battery, the state is critical exactly when the voltage is at
    most 3.5 V. *)
Theorem battery_state_threshold chg_boost model reg_1d reg_13 :
  get_battery_state chg_boost model reg_1d reg_13 =
  if String.eqb (py_strip chg_boost) "0" then on_battery
  else if fst (get_battery_voltage model reg_1d reg_13) <=? 350 then critical
  else powered.
Proof.
  unfold get_battery_state, get_battery_voltage. cbn [fst snd].
  destruct (String.eqb (py_strip chg_boost) "0"); [reflexivity|].
  set (v := if String.eqb (py_strip model) "a0" then 2 * reg_1d else 4 * reg_13).
  destruct (Z.ltb_spec 400 v); [rewrite (proj2 (Z.leb_gt v 350)) by lia; reflexivity|].
  destruct (Z.ltb_spec 375 v); [rewrite (proj2 (Z.leb_gt v 350)) by lia; reflexivity|].
  destruct (Z.ltb_spec 350 v); [rewrite (proj2 (Z.leb_gt v 350)) by lia; reflexivity|].
  rewrite (proj2 (Z.leb_le v 350)) by lia.
  destruct (Z.ltb_spec 325 v); reflexivity.
Qed.

Lemma wait_busy_loop_first_low e n m f s :
  (forall k, (k < n)%nat -> busy_level e (clock s + 10 * Z.of_nat k) = 1) ->
  busy_level e (clock s + 10 * Z.of_nat n) <> 1 -> (n <= m)%nat ->
  wait_busy_loop m f e s = (set_clock (clock s + 10 * Z.of_nat n) s, Ok tt).
Proof.
  revert m s. induction n as [|n IH]; intros m s Hb Hn Hm.
  - rewrite Z.add_0_r in *. rewrite set_clock_id. destruct m; cbn; rewrite (proj2 (Z.eqb_neq _ _) Hn); reflexivity.
  - destruct m as [|m]; [lia|]. cbn [wait_busy_loop].
    rewrite (proj2 (Z.eqb_eq _ _)) by (specialize (Hb 0%nat ltac:(lia)); rewrite Z.add_0_r in Hb; exact Hb).
    unfold bind, sleep_ms, modify. rewrite IH.
    + cbn [clock set_clock]. rewrite set_clock_twice. f_equal. f_equal. lia.
    + intros k Hk. cbn [clock set_clock]. rewrite <- Z.add_assoc.
      replace (10 + 10 * Z.of_nat k) with (10 * Z.of_nat (S k)) by lia. apply Hb. lia.
    + cbn [clock set_clock]. rewrite <- Z.add_assoc.
      replace (10 + 10 * Z.of_nat n) with (10 * Z.of_nat (S n)) by lia. exact Hn.
    + lia.
Qed.

Lemma wait_busy_loop_all_high e m f s :
  (forall k, (k <= m)%nat -> busy_level e (clock s + 10 * Z.of_nat k) = 1) ->
  wait_busy_loop m f e s = (set_clock (clock s + 10 * Z.of_nat m) s, Waiting).
Proof.
  revert s. induction m as [|m IH]; intros s Hb.
  - cbn. rewrite (proj2 (Z.eqb_eq _ _)) by (specialize (Hb 0%nat ltac:(lia)); rewrite Z.add_0_r in Hb; exact Hb).
    rewrite Z.add_0_r, set_clock_id. reflexivity.
  - cbn [wait_busy_loop].
    rewrite (proj2 (Z.eqb_eq _ _)) by (specialize (Hb 0%nat ltac:(lia)); rewrite Z.add_0_r in Hb; exact Hb).
    unfold bind, sleep_ms, modify. rewrite IH.
    + cbn [clock set_clock]. rewrite set_clock_twice. f_equal. f_equal. lia.
    + intros k Hk. cbn [clock set_clock]. rewrite <- Z.add_assoc.
      replace (10 + 10 * Z.of_nat k) with (10 * Z.of_nat (S k)) by lia. apply Hb. lia.
Qed.

(** [wait_busy] polls BUSY every 10 ms and returns at the first low
    reading. *)
Theorem wait_busy_polls_every_10ms e n f s :
  (forall k, (k < n)%nat -> busy_level e (clock s + 10 * Z.of_nat k) = 1) ->
  busy_level e (clock s + 10 * Z.of_nat n) <> 1 ->
  wait_busy f e s =
  if (n <=? f)%nat then (set_clock (clock s + 10 * Z.of_nat n) s, Ok tt)
  else (set_clock (clock s + 10 * Z.of_nat f) s, Waiting).
Proof.
  intros Hb Hn. unfold wait_busy. destruct (Nat.leb_spec n f).
  - apply wait_busy_loop_first_low; assumption.
  - apply wait_busy_loop_all_high. intros k Hk. apply Hb. lia.
Qed.

Lemma wait_busy_polls_every_10ms_witness :
  wait_busy 100%nat env_busy_30ms s_fresh = (set_clock 30 s_fresh, Ok tt).
Proof.
  exact (wait_busy_polls_every_10ms env_busy_30ms 3%nat 100%nat s_fresh
           ltac:(intros k Hk; do 3 (destruct k as [|k]; [reflexivity|]); lia)
           ltac:(vm_compute; discriminate)).
Defined.

Section Lut_tables.
Variable e : Env.
Hypothesis Hspi : forall n, spi_ok e n = true.

Lemma Lut_ok lut f s :
  busy_level e (clock s) <> 1 -> (153 <= List.length lut)%nat ->
  Lut lut f e s = (send_bytes_st (firstn 153 lut) (log_xfer 0x32 (set_dc_level 0 s)), Ok tt).
Proof.
  intros Hb Hl. unfold Lut. unfold bind at 1. rewrite send_command_ok by apply Hspi.
  unfold bind at 1. rewrite send_indexed_ok by (exact Hspi || (intros i Hi; apply in_range in Hi; lia)).
  change 153 with (Z.of_nat 153). rewrite map_nth_range by exact Hl.
  apply wait_busy_low_now.
  destruct (send_bytes_fields (firstn 153 lut) (log_xfer 0x32 (set_dc_level 0 s))) as (Hc & _).
  rewrite Hc. exact Hb.
Qed.

Lemma Lut_short lut f s :
  (List.length lut < 153)%nat ->
  Lut lut f e s = (send_bytes_st lut (log_xfer 0x32 (set_dc_level 0 s)), Raise IndexError).
Proof.
  intros Hl. unfold Lut. unfold bind at 1. rewrite send_command_ok by apply Hspi.
  unfold bind at 1.
  rewrite (range_app 0 (Z.of_nat (List.length lut)) 153) by lia.
  rewrite (range_cons (Z.of_nat (List.length lut)) 153) by lia.
  rewrite send_indexed_short by (exact Hspi || lia || (intros i Hi; apply in_range in Hi; lia)).
  rewrite map_nth_range by lia. rewrite firstn_all. reflexivity.
Qed.
End Lut_tables.

(** [set_lut] with working SPI and BUSY low completes exactly when the
    table has at least 159 entries; otherwise it raises [IndexError]. *)
Theorem set_lut_reads_159 e f s lut :
  (forall n, spi_ok e n = true) -> busy_level e (clock s) <> 1 ->
  snd (set_lut lut f e s) = if (159 <=? List.length lut)%nat then Ok tt else Raise IndexError.
Proof.
  intros Hspi Hb. unfold set_lut. unfold bind at 1.
  destruct (Nat.ltb_spec (List.length lut) 153) as [Hl|Hl].
  - rewrite Lut_short by assumption. rewrite (proj2 (Nat.leb_gt _ _)) by lia. reflexivity.
  - rewrite Lut_ok by assumption.
    assert (List.length lut = 153%nat \/ List.length lut = 154%nat \/ List.length lut = 155%nat \/
            List.length lut = 156%nat \/ List.length lut = 157%nat \/ List.length lut = 158%nat \/
            (159 <= List.length lut)%nat) as Hc by lia.
    destruct Hc as [Hc|[Hc|[Hc|[Hc|[Hc|[Hc|Hc]]]]]];
    repeat (first [ rewrite send_command_ok by apply Hspi
                  | rewrite send_data_ok by apply Hspi
                  | rewrite py_index_in by lia
                  | rewrite py_index_out by lia
                  | unfold bind at 1 ]; cbn beta iota).
    all: destruct (Nat.leb_spec 159 (List.length lut)); try reflexivity; lia.
Qed.

Lemma refresh_tick_idle st f e s :
  refresh_due st s = false -> refresh_tick st f e s = (set_clock (clock s + 500) s, Ok st).
Proof. intros H. unfold refresh_tick, bind, gets, sleep_ms, modify, ret. rewrite H. reflexivity. Qed.

(** Within the period and with no refresh requested, the refresh loop
    only sleeps 0.5 s per tick and sends nothing. *)
Theorem no_refresh_within_period n st f e s t0 :
  next_refresh_time st = py_round_ms t0 -> need_refresh s = false ->
  clock s + 500 * Z.of_nat n <= t0 + 60000 ->
  refresh_loop n st f e s = (set_clock (clock s + 500 * Z.of_nat n) s, Ok st).
Proof.
  intros Hn Hr. revert s Hr. induction n as [|n IH]; intros s Hr Hc; cbn [refresh_loop].
  - rewrite Z.add_0_r, set_clock_id. reflexivity.
  - unfold bind at 1. rewrite refresh_tick_idle.
    + rewrite IH.
      * cbn [clock set_clock]. rewrite set_clock_twice. f_equal. f_equal. lia.
      * exact Hr.
      * cbn [clock set_clock]. lia.
    + unfold refresh_due, SCREEN_REFRESH_PERIOD_S. rewrite Hn, Hr, orb_false_r.
      pose proof (py_round_ms_bounds t0). pose proof (py_round_ms_bounds (clock s)).
      apply Z.ltb_ge. lia.
Qed.

Lemma no_refresh_within_period_witness :
  refresh_loop 100 {| next_refresh_time := py_round_ms 0; prev_hash := HInt 0 |} 0%nat env_ok s_fresh =
  (set_clock 50000 s_fresh, Ok {| next_refresh_time := py_round_ms 0; prev_hash := HInt 0 |}).
Proof.
  exact (no_refresh_within_period 100 {| next_refresh_time := py_round_ms 0; prev_hash := HInt 0 |}
           0%nat env_ok s_fresh 0 eq_refl eq_refl ltac:(vm_compute; discriminate)).
Defined.

Lemma send_frame_bytes_witness :
  send_frame (PyBytearray [0xFF; 0x00; 0x0F]) 0%nat env_ok s_fresh =
  (send_bytes_st [0xFF; 0x00; 0x0F] s_fresh, Raise IndexError).
Proof. exact (send_frame_bytes env_ok 0%nat s_fresh (PyBytearray [0xFF; 0x00; 0x0F]) (fun _ => eq_refl)). Defined.

Lemma display_full_frame_witness :
  exists s', display white_buf 0%nat env_ok s_fresh = (s', Ok PyNone) /\
    trace s' = [Xfer 0 0x20; Xfer 1 0xC7; Xfer 0 0x22] ++
               rev (map (Xfer 1) (firstn 4000 (buf_bytes white_buf))) ++ Xfer 0 0x24 :: trace s_fresh /\
    clock s' = clock s_fresh /\ app_same s_fresh s'.
Proof.
  exact (display_full_frame env_ok 0%nat s_fresh white_buf (fun _ => eq_refl)
           ltac:(vm_compute; discriminate) ltac:(vm_compute; reflexivity)).
Defined.

Lemma displayPartBaseImage_both_rams_witness :
  exists s', displayPartBaseImage white_buf 0%nat env_ok s_fresh = (s', Ok tt) /\
    trace s' = [Xfer 0 0x20; Xfer 1 0xC7; Xfer 0 0x22] ++
               rev (map (Xfer 1) (firstn 4000 (buf_bytes white_buf))) ++ Xfer 0 0x26 ::
               rev (map (Xfer 1) (firstn 4000 (buf_bytes white_buf))) ++ Xfer 0 0x24 :: trace s_fresh /\
    clock s' = clock s_fresh /\ app_same s_fresh s'.
Proof.
  exact (displayPartBaseImage_both_rams env_ok 0%nat s_fresh white_buf (fun _ => eq_refl)
           ltac:(vm_compute; discriminate) ltac:(vm_compute; reflexivity)).
Defined.

Lemma unchanged_frame_not_resent_witness :
  refresh_cycle st_blank 100%nat env_ok s_fresh =
  (set_is_busy_st (Some false) (set_current_view_st "HOME"
     (set_need_refresh_st false (set_is_busy_st (Some true) s_after_init))),
   Ok {| next_refresh_time := py_round_ms (clock s_after_init); prev_hash := HStr "blank" |}).
Proof.
  exact (unchanged_frame_not_resent st_blank 100%nat env_ok s_fresh s_after_init "HOME"
           ["STATUS"; "SETUP"; "SYSTEM"]%string (buf_bytes white_buf)
           ltac:(vm_compute; reflexivity) ltac:(vm_compute; reflexivity) eq_refl
           ltac:(discriminate) ltac:(vm_compute; reflexivity) ltac:(vm_compute; reflexivity)).
Defined.

Lemma periodic_refresh_spacing_witness :
  (refresh_due {| next_refresh_time := py_round_ms 0; prev_hash := HInt 0 |} (s_at false 70000) = true ->
   0 + 60000 <= clock (s_at false 70000)) /\
  (0 + 61000 < clock (s_at false 70000) ->
   refresh_due {| next_refresh_time := py_round_ms 0; prev_hash := HInt 0 |} (s_at false 70000) = true).
Proof.
  exact (periodic_refresh_spacing {| next_refresh_time := py_round_ms 0; prev_hash := HInt 0 |}
           (s_at false 70000) 0 eq_refl eq_refl).
Defined.

Lemma set_lut_reads_159_witness :
  snd (set_lut (firstn 155 lut_full_update) 0%nat env_ok s_fresh) = Raise IndexError.
Proof.
  exact (set_lut_reads_159 env_ok 0%nat s_fresh (firstn 155 lut_full_update) (fun _ => eq_refl)
           ltac:(vm_compute; discriminate)).
Defined.
